(** * mcp-server-ccxt: the tool dispatcher of [src/server.py]

    A shallow embedding of the exchange registry, the instance cache,
    [get_exchange], [format_ticker] and [handle_call_tool], followed by
    the properties of the dispatcher.

    Python values are a small tagged union, dictionaries whose order is
    never observed ([arguments], a ticker) are [gmap]s, dictionaries that
    are iterated ([SUPPORTED_EXCHANGES], [exchange_instances], the result
    of [fetch_tickers]) are association lists in insertion order.  The
    module-level cache and the calls into ccxt are threaded through a
    state-and-exception monad over a [World].

    Two limits of the model are kept visible in the statements.  Strings
    are byte strings and [upper]/[lower] map the ASCII letters only:
    they are Python's [str.upper]/[str.lower] on ASCII strings, and a
    statement whose text or outcome depends on the case of a string the
    caller chooses takes [ascii_only] of that string as a hypothesis.
    A float is the rational it denotes: NaN and the infinities are not
    values of the model, and a statement about the order of volumes says
    which volumes it covers. *)

From Stdlib Require Import Ascii String QArith Sorted.
From stdpp Require Import base strings gmap list pretty.

Open Scope Z_scope.

(** ** Python values and exceptions *)

Inductive pyval : Type :=
  | PNone
  | PBool (b : bool)
  | PInt (z : Z)
  | PFloat (q : Q)
  | PStr (s : string).

Inductive exn : Type :=
  | ValueError (msg : string)
  | TypeError
  | AttributeError
  | KeyError (key : string)
  | IndexError
  | OverflowError
  | BaseError (msg : string)      (* ccxt.BaseError and its subclasses; msg is str(e) *)
  | ForeignError (msg : string).  (* any other exception leaving the library *)

Inductive Outcome (A : Type) : Type :=
  | Returned (a : A)
  | Raised (e : exn).
Arguments Returned {A} a.
Arguments Raised {A} e.

Record TextContent : Type := mkTextContent { type : string; text : string }.

(** ** Strings *)

Definition newline : ascii := ascii_of_nat 10.
Definition nl : string := String newline "".

Definition ascii_lower (c : ascii) : ascii :=
  let n := N_of_ascii c in
  if ((65 <=? n) && (n <=? 90))%N then ascii_of_N (n + 32) else c.

Definition ascii_upper (c : ascii) : ascii :=
  let n := N_of_ascii c in
  if ((97 <=? n) && (n <=? 122))%N then ascii_of_N (n - 32) else c.

Fixpoint str_map (f : ascii → ascii) (s : string) : string :=
  match s with
  | EmptyString => EmptyString
  | String c s' => String (f c) (str_map f s')
  end.

(** [s.lower()] and [s.upper()] on the bytes of [s]: the ASCII letters
    change case, every other byte stays.  On an ASCII string this is
    what Python does; for other strings Python maps letters the model
    leaves alone (and may change the length), so the statements that
    depend on it are stated for ASCII strings. *)
Definition lower : string → string := str_map ascii_lower.
Definition upper : string → string := str_map ascii_upper.

(** [s.split(sep)] for a one-character separator: never the empty list. *)
Fixpoint split (sep : ascii) (s : string) : list string :=
  match s with
  | EmptyString => [EmptyString]
  | String c s' =>
      if decide (c = sep) then EmptyString :: split sep s'
      else match split sep s' with
           | [] => [String c EmptyString]
           | h :: t => String c h :: t
           end
  end.

Fixpoint contains (sep : ascii) (s : string) : bool :=
  match s with
  | EmptyString => false
  | String c s' => if decide (c = sep) then true else contains sep s'
  end.

Definition slash : ascii := ascii_of_nat 47.

(** [sep.join(parts)] *)
Definition join (sep : string) (parts : list string) : string :=
  String.concat sep parts.

(** ** The registry *)

Inductive ExchangeClass : Type :=
  | binance | coinbase | kraken | kucoin | hyperliquid
  | huobi | bitfinex | bybit | okx | mexc.

Global Instance ExchangeClass_eq_dec : EqDecision ExchangeClass.
Proof. solve_decision. Defined.

Definition SUPPORTED_EXCHANGES : list (string * ExchangeClass) :=
  [ ("binance", binance);
    ("coinbase", coinbase);
    ("kraken", kraken);
    ("kucoin", kucoin);
    ("ftx", hyperliquid);
    ("huobi", huobi);
    ("bitfinex", bitfinex);
    ("bybit", bybit);
    ("okx", okx);
    ("mexc", mexc) ].

(** [d[k]] / [k in d] on a dictionary kept in insertion order. *)
Fixpoint dict_lookup {V : Type} (k : string) (d : list (string * V)) : option V :=
  match d with
  | [] => None
  | (k', v) :: d' => if decide (k = k') then Some v else dict_lookup k d'
  end.

Definition dict_keys {V : Type} (d : list (string * V)) : list string := d.*1.
Definition dict_values {V : Type} (d : list (string * V)) : list V := d.*2.

(** ** The world: instance cache and what was done to the library *)

Record Instance : Type := mkInstance { inst_id : nat; inst_class : ExchangeClass }.

Global Instance Instance_eq_dec : EqDecision Instance.
Proof. solve_decision. Defined.

Inductive Event : Type :=
  | Construct (i : Instance)
  | FetchTicker (i : Instance) (symbol : string)
  | FetchTickers (i : Instance)
  | Close (i : Instance).

Record World : Type := mkWorld {
  exchange_instances : list (string * Instance);
  next_id : nat;
  trace : list Event
}.

Definition initial_world : World := mkWorld [] 0 [].

(** ** The monad of the async functions: state and exceptions *)

Definition M (A : Type) : Type := World → Outcome A * World.

Global Instance M_ret : MRet M := λ A a w, (Returned a, w).
Global Instance M_bind : MBind M := λ A B f m w,
  match m w with
  | (Returned a, w') => f a w'
  | (Raised e, w') => (Raised e, w')
  end.

Definition raise {A : Type} (e : exn) : M A := λ w, (Raised e, w).

Definition lift {A : Type} (r : exn + A) : M A :=
  match r with inl e => raise e | inr a => mret a end.

Definition get_instances : M (list (string * Instance)) :=
  λ w, (Returned (exchange_instances w), w).

Definition log (ev : Event) : M unit :=
  λ w, (Returned (), mkWorld (exchange_instances w) (next_id w) (trace w ++ [ev])).

(** [try: body / except ccxt.BaseError as e: handler(str(e))] *)
Definition try_except_BaseError {A : Type} (body : M A) (handler : string → M A) : M A :=
  λ w, match body w with
       | (Raised (BaseError msg), w') => handler msg w'
       | r => r
       end.

(** [try: body / finally: fin] *)
Definition try_finally {A : Type} (body : M A) (fin : M unit) : M A :=
  λ w, match body w with
       | (r, w') =>
           match fin w' with
           | (Returned _, w'') => (r, w'')
           | (Raised e, w'') => (Raised e, w'')
           end
       end.

Fixpoint for_each {A : Type} (l : list A) (f : A → M unit) : M unit :=
  match l with
  | [] => mret ()
  | x :: l' => f x ≫= λ _, for_each l' f
  end.

(** ** Built-in operations on Python values *)

Abbreviation Ticker := (gmap string pyval).
Abbreviation ArgDict := (gmap string pyval).

(** What the program takes from outside: the two ccxt fetches (the answer
    of the network for an instance) and the built-in conversions whose
    text format is Python's own. *)
Class Runtime : Type := {
  ccxt_fetch_ticker : Instance → string → exn + Ticker;
  ccxt_fetch_tickers : Instance → exn + list (string * Ticker);
  float_repr : Q → string;
  int_of_str : string → exn + Z;
  float_of_str : string → exn + Q
}.

(** [d.get(k, dflt)] *)
Definition dict_get (d : gmap string pyval) (k : string) (dflt : pyval) : pyval :=
  default dflt (d !! k).

(** [bool(v)] *)
Definition truthy (v : pyval) : bool :=
  match v with
  | PNone => false
  | PBool b => b
  | PInt z => negb (z =? 0)
  | PFloat q => negb (Qeq_bool q 0)
  | PStr s => negb (bool_decide (s = ""))
  end.

(** [v or d] *)
Definition py_or (v d : pyval) : pyval := if truthy v then v else d.

(** [v.lower()] and [v.upper()]: only a [str] has them. *)
Definition py_lower (v : pyval) : exn + string :=
  match v with PStr s => inr (lower s) | _ => inl AttributeError end.

Definition py_upper (v : pyval) : exn + string :=
  match v with PStr s => inr (upper s) | _ => inl AttributeError end.

(** [l[i]] *)
Definition py_index {A : Type} (l : list A) (i : nat) : exn + A :=
  match l !! i with Some a => inr a | None => inl IndexError end.

(** [d[k]] on a ticker *)
Definition py_getitem (d : gmap string pyval) (k : string) : exn + pyval :=
  match d !! k with Some v => inr v | None => inl (KeyError k) end.

(** [float(z)] for an [int]: exact below 2^53, beyond that the nearest
    float (ties to the even mantissa), and [OverflowError] when that
    float would be 2^1024 or more. *)
Definition float_of_Z (z : Z) : exn + Q :=
  let a := Z.abs z in
  if a <? 2 ^ 53 then inr (inject_Z z)
  else
    let shift := Z.log2 a - 52 in
    let m := Z.shiftr a shift in
    let rest := a - Z.shiftl m shift in
    let half := Z.shiftl 1 (shift - 1) in
    let m' := if (half <? rest) || ((rest =? half) && Z.odd m) then m + 1 else m in
    let r := Z.shiftl m' shift in
    if 2 ^ 1024 <=? r then inl OverflowError
    else inr (inject_Z (Z.sgn z * r)).

(** [l[:n]] *)
Definition slice_to {A : Type} (l : list A) (n : Z) : list A :=
  if 0 <=? n then take (Z.to_nat n) l
  else take (length l - Z.to_nat (- n)) l.

Section Program.
Context {rt : Runtime}.

(** [str(v)], as an f-string field renders it *)
Definition py_str (v : pyval) : string :=
  match v with
  | PNone => "None"
  | PBool true => "True"
  | PBool false => "False"
  | PInt z => pretty z
  | PFloat q => float_repr q
  | PStr s => s
  end.

(** [int(v)]: a float is truncated towards zero. *)
Definition py_int (v : pyval) : exn + Z :=
  match v with
  | PNone => inl TypeError
  | PBool b => inr (if b then 1 else 0)
  | PInt z => inr z
  | PFloat q => inr (Z.quot (Qnum q) (Zpos (Qden q)))
  | PStr s => int_of_str s
  end.

(** [float(v)]: the finite float, as the rational it denotes; an [int]
    is rounded as [float_of_Z] says. *)
Definition py_float (v : pyval) : exn + Q :=
  match v with
  | PNone => inl TypeError
  | PBool b => inr (if b then 1%Q else 0%Q)
  | PInt z => float_of_Z z
  | PFloat q => inr q
  | PStr s => float_of_str s
  end.

(** ** [sorted(xs, key=..., reverse=True)]

    The keys are computed once, in list order (the first key that raises
    ends the call); the decorated list is sorted stably, larger keys
    first. *)

Fixpoint decorate {A : Type} (key : A → exn + Q) (l : list A) : exn + list (Q * A) :=
  match l with
  | [] => inr []
  | x :: l' =>
      match key x with
      | inl e => inl e
      | inr k =>
          match decorate key l' with
          | inl e => inl e
          | inr kl => inr ((k, x) :: kl)
          end
      end
  end.

Fixpoint insert_desc {A : Type} (x : Q * A) (l : list (Q * A)) : list (Q * A) :=
  match l with
  | [] => [x]
  | y :: l' =>
      if Qle_bool y.1 x.1 then x :: y :: l'
      else y :: insert_desc x l'
  end.

Fixpoint sort_desc {A : Type} (l : list (Q * A)) : list (Q * A) :=
  match l with
  | [] => []
  | x :: l' => insert_desc x (sort_desc l')
  end.

Definition sorted_reverse {A : Type} (key : A → exn + Q) (l : list A) : exn + list A :=
  match decorate key l with
  | inl e => inl e
  | inr kl => inr (sort_desc kl).*2
  end.

(** ** [get_exchange] *)

Fixpoint dict_set {V : Type} (k : string) (v : V) (d : list (string * V)) : list (string * V) :=
  match d with
  | [] => [(k, v)]
  | (k', v') :: d' =>
      if decide (k = k') then (k, v) :: d' else (k', v') :: dict_set k v d'
  end.

(** [exchange_class()]: a fresh connector object. *)
Definition construct (exchange_class : ExchangeClass) : M Instance :=
  λ w, let i := mkInstance (next_id w) exchange_class in
       (Returned i,
        mkWorld (exchange_instances w) (S (next_id w)) (trace w ++ [Construct i])).

(** [exchange_instances[k] = i] *)
Definition store (k : string) (i : Instance) : M unit :=
  λ w, (Returned (),
        mkWorld (dict_set k i (exchange_instances w)) (next_id w) (trace w)).

Definition get_exchange (exchange_id : pyval) : M Instance :=
  exchange_id ← lift (py_lower exchange_id);
  match dict_lookup exchange_id SUPPORTED_EXCHANGES with
  | None => raise (ValueError ("Unsupported exchange: " +:+ exchange_id))
  | Some exchange_class =>
      instances ← get_instances;
      (match dict_lookup exchange_id instances with
       | None => i ← construct exchange_class; store exchange_id i
       | Some _ => mret ()
       end) ≫= λ _,
      instances ← get_instances;
      match dict_lookup exchange_id instances with
      | Some i => mret i
      | None => raise (KeyError exchange_id)
      end
  end.

(** ** [format_ticker] *)

Definition ticker_text (ex : string) (ticker : Ticker) : string :=
  "Exchange: " +:+ ex +:+ nl +:+
  "Symbol: " +:+ py_str (dict_get ticker "symbol" PNone) +:+ nl +:+
  "Last Price: " +:+ py_str (dict_get ticker "last" (PStr "N/A")) +:+ nl +:+
  "24h High: " +:+ py_str (dict_get ticker "high" (PStr "N/A")) +:+ nl +:+
  "24h Low: " +:+ py_str (dict_get ticker "low" (PStr "N/A")) +:+ nl +:+
  "24h Volume: " +:+ py_str (dict_get ticker "baseVolume" (PStr "N/A")) +:+ nl +:+
  "Bid: " +:+ py_str (dict_get ticker "bid" (PStr "N/A")) +:+ nl +:+
  "Ask: " +:+ py_str (dict_get ticker "ask" (PStr "N/A")) +:+ nl +:+
  "---".

Definition format_ticker (ticker : Ticker) (exchange_id : pyval) : M string :=
  ex ← lift (py_upper exchange_id);
  mret (ticker_text ex ticker).

(** ** The calls into the library *)

Definition fetch_ticker (exchange : Instance) (symbol : string) : M Ticker :=
  log (FetchTicker exchange symbol) ≫= λ _, lift (ccxt_fetch_ticker exchange symbol).

Definition fetch_tickers (exchange : Instance) : M (list (string * Ticker)) :=
  log (FetchTickers exchange) ≫= λ _, lift (ccxt_fetch_tickers exchange).

Definition close (instance : Instance) : M unit := log (Close instance).

Definition clear : M unit :=
  λ w, (Returned (), mkWorld [] (next_id w) (trace w)).

(** ** [handle_call_tool] *)

Definition volume_key (x : Ticker) : exn + Q :=
  py_float (py_or (dict_get x "baseVolume" (PInt 0)) (PInt 0)).

Fixpoint format_all (tickers : list Ticker) (exchange_id : pyval) : M (list string) :=
  match tickers with
  | [] => mret []
  | ticker :: rest =>
      formatted_data ← format_ticker ticker exchange_id;
      formatted_results ← format_all rest exchange_id;
      mret (formatted_data :: formatted_results)
  end.

Definition text_content (s : string) : TextContent := mkTextContent "text" s.

(** The three branches that work on a resolved exchange, and the final
    [else]. *)
Definition tool_action (name : string) (arguments : ArgDict)
    (exchange_id : pyval) (exchange : Instance) : M (list TextContent) :=
  if decide (name = "get-price") then
    symbol ← lift (py_upper (dict_get arguments "symbol" (PStr "")));
    ticker ← fetch_ticker exchange symbol;
    ex ← lift (py_upper exchange_id);
    last ← lift (py_getitem ticker "last");
    quote ← lift (py_index (split slash symbol) 1);
    mret [text_content ("Current price of " +:+ symbol +:+ " on " +:+ ex +:+ ": "
                        +:+ py_str last +:+ " " +:+ quote)]
  else if decide (name = "get-market-summary") then
    symbol ← lift (py_upper (dict_get arguments "symbol" (PStr "")));
    ticker ← fetch_ticker exchange symbol;
    formatted_data ← format_ticker ticker exchange_id;
    mret [text_content ("Market summary for " +:+ symbol +:+ ":" +:+ nl +:+ nl
                        +:+ formatted_data)]
  else if decide (name = "get-top-volumes") then
    limit ← lift (py_int (dict_get arguments "limit" (PInt 5)));
    tickers ← fetch_tickers exchange;
    sorted ← lift (sorted_reverse volume_key (dict_values tickers));
    let sorted_tickers := slice_to sorted limit in
    formatted_results ← format_all sorted_tickers exchange_id;
    ex ← lift (py_upper exchange_id);
    mret [text_content ("Top " +:+ pretty limit +:+ " pairs by volume on " +:+ ex +:+ ":"
                        +:+ nl +:+ nl +:+ join nl formatted_results)]
  else
    raise (ValueError ("Unknown tool: " +:+ name)).

(** The body of the [try]. *)
Definition dispatch (name : string) (arguments : ArgDict) : M (list TextContent) :=
  if decide (name = "list-exchanges") then
    let exchange_list :=
      join nl (map (λ ex, "- " +:+ upper ex) (dict_keys SUPPORTED_EXCHANGES)) in
    mret [text_content ("Supported exchanges:" +:+ nl +:+ nl +:+ exchange_list)]
  else
    let exchange_id := dict_get arguments "exchange" (PStr "binance") in
    exchange ← get_exchange exchange_id;
    tool_action name arguments exchange_id exchange.

(** The [finally] block. *)
Definition cleanup : M unit :=
  instances ← get_instances;
  for_each (dict_values instances) close ≫= λ _,
  clear.

Definition handle_call_tool (name : string) (arguments : ArgDict) : M (list TextContent) :=
  try_finally
    (try_except_BaseError
       (dispatch name arguments)
       (λ msg, mret [text_content ("Error accessing cryptocurrency data: " +:+ msg)]))
    cleanup.

End Program.

(** ** The tool catalog: [get_exchange_schema] and [handle_list_tools] *)

(** The JSON-shaped values of an input schema; an object keeps its
    fields in the order they are written. *)
Unset Elimination Schemes.
Inductive json : Type :=
  | JString (s : string)
  | JArray (items : list json)
  | JObject (fields : list (string * json)).
Set Elimination Schemes.

Record Tool : Type := mkTool {
  tool_name : string;
  tool_description : string;
  inputSchema : json
}.

Definition get_exchange_schema : json :=
  JObject
    [ ("type", JString "string");
      ("description",
       JString ("Exchange to use (supported: "
                +:+ join ", " (dict_keys SUPPORTED_EXCHANGES) +:+ ")"));
      ("enum", JArray (JString <$> dict_keys SUPPORTED_EXCHANGES));
      ("default", JString "binance") ].

Definition handle_list_tools : list Tool :=
  [ mkTool "get-price"
      "Get current price of a cryptocurrency pair from a specific exchange"
      (JObject
         [ ("type", JString "object");
           ("properties",
            JObject
              [ ("symbol",
                 JObject
                   [ ("type", JString "string");
                     ("description",
                      JString "Trading pair symbol (e.g., BTC/USDT, ETH/USDT)") ]);
                ("exchange", get_exchange_schema) ]);
           ("required", JArray [JString "symbol"]) ]);
    mkTool "get-market-summary"
      "Get detailed market summary for a cryptocurrency pair from a specific exchange"
      (JObject
         [ ("type", JString "object");
           ("properties",
            JObject
              [ ("symbol",
                 JObject
                   [ ("type", JString "string");
                     ("description",
                      JString "Trading pair symbol (e.g., BTC/USDT, ETH/USDT)") ]);
                ("exchange", get_exchange_schema) ]);
           ("required", JArray [JString "symbol"]) ]);
    mkTool "get-top-volumes"
      "Get top cryptocurrencies by trading volume from a specific exchange"
      (JObject
         [ ("type", JString "object");
           ("properties",
            JObject
              [ ("limit",
                 JObject
                   [ ("type", JString "number");
                     ("description",
                      JString "Number of pairs to return (default: 5)") ]);
                ("exchange", get_exchange_schema) ]) ]);
    mkTool "list-exchanges"
      "List all supported cryptocurrency exchanges"
      (JObject
         [ ("type", JString "object");
           ("properties", JObject []) ]) ].

(** Reading a schema: a field of an object, the strings of an array. *)
Definition json_field (k : string) (j : json) : option json :=
  match j with JObject fields => dict_lookup k fields | _ => None end.

Definition json_strings (j : json) : list string :=
  match j with
  | JArray items =>
      omap (λ item, match item with JString s => Some s | _ => None end) items
  | _ => []
  end.

(** The identifiers a schema lets the caller choose from. *)
Definition schema_enum (schema : json) : list string :=
  from_option json_strings [] (json_field "enum" schema).

(** The schema a tool advertises for one of its arguments. *)
Definition argument_schema (arg : string) (t : Tool) : option json :=
  json_field "properties" (inputSchema t) ≫= json_field arg.

(** The arguments a tool declares as required. *)
Definition required_arguments (t : Tool) : list string :=
  from_option json_strings [] (json_field "required" (inputSchema t)).

(** ** Vocabulary of the statements *)

(** *** The specification's side

    What the statements say a text, a case or a volume is, written
    without the functions of the embedding, to be compared with them. *)

(** A text given by its lines: the lines, a line feed between two. *)
Fixpoint text_of_lines (lines : list string) : string :=
  match lines with
  | [] => EmptyString
  | line :: rest =>
      match rest with
      | [] => line
      | _ => line +:+ String "010" (text_of_lines rest)
      end
  end.

(** One line feed. *)
Definition LF : string := String "010" EmptyString.

(** A string of ASCII characters, on which the case maps of the model
    are those of Python. *)
Fixpoint ascii_only (s : string) : bool :=
  match s with
  | EmptyString => true
  | String c s' => (N_of_ascii c <? 128)%N && ascii_only s'
  end.





(** What a field of a ticker is printed as: its value, or the given word
    when the ticker has no such key. *)
Definition printed {rt : Runtime} (ticker : Ticker) (k missing : string) : string :=
  match ticker !! k with
  | Some v => py_str v
  | None => missing
  end.

(** An instance is live when it was constructed and not closed since. *)
Definition live (w : World) (i : Instance) : Prop :=
  Construct i ∈ trace w ∧ Close i ∉ trace w.

(** The cache holds one entry per identifier, each entry an instance of
    the class the registry gives for its key, constructed earlier; and
    every live instance is in the cache. *)
Definition cache_ok (w : World) : Prop :=
  NoDup (dict_keys (exchange_instances w)) ∧
  Forall (λ ki, dict_lookup ki.1 SUPPORTED_EXCHANGES = Some (inst_class ki.2) ∧
                (inst_id ki.2 < next_id w)%nat)
         (exchange_instances w) ∧
  (∀ i, live w i → i ∈ dict_values (exchange_instances w)).

(** [w1] is a later state of [w] in which nothing was closed or dropped:
    the trace grew by [evs], what was cached still is, and every instance
    constructed in between is cached. *)
Definition grows_by (evs : list Event) (w w1 : World) : Prop :=
  trace w1 = trace w ++ evs ∧
  (∀ i, i ∈ dict_values (exchange_instances w) → i ∈ dict_values (exchange_instances w1)) ∧
  (∀ i, Construct i ∈ evs → i ∈ dict_values (exchange_instances w1)).

Definition grows (w w1 : World) : Prop := ∃ evs, grows_by evs w w1.

Definition monotone {A : Type} (m : M A) : Prop := ∀ w, grows w (m w).2.

(** What the [except] clause makes of the outcome of the [try] body. *)
Definition caught (r : Outcome (list TextContent)) : Outcome (list TextContent) :=
  match r with
  | Raised (BaseError msg) =>
      Returned [text_content ("Error accessing cryptocurrency data: " +:+ msg)]
  | _ => r
  end.

(** The state the [finally] block leaves. *)
Definition closed_world (w : World) : World :=
  mkWorld [] (next_id w) (trace w ++ (Close <$> dict_values (exchange_instances w))).

(** The names advertised by [handle_list_tools]. *)
Definition TOOL_NAMES : list string :=
  ["get-price"; "get-market-summary"; "get-top-volumes"; "list-exchanges"].




(** The exception a call ends with when its exchange argument does not
    resolve, or when it resolves and the tool name is unknown. *)
Definition rejection (name : string) (exchange_id : pyval) : exn :=
  match exchange_id with
  | PStr e =>
      match dict_lookup (lower e) SUPPORTED_EXCHANGES with
      | Some _ => ValueError ("Unknown tool: " +:+ name)
      | None => ValueError ("Unsupported exchange: " +:+ lower e)
      end
  | _ => AttributeError
  end.

(** The instance a fetch event was made on. *)
Definition fetched_on (ev : Event) : option Instance :=
  match ev with
  | FetchTicker i _ => Some i
  | FetchTickers i => Some i
  | _ => None
  end.

(** A step that leaves the world as it is. *)
Definition quiet {A : Type} (m : M A) : Prop := ∀ w, (m w).2 = w.

(** A step that touches the world by at most one fetch, made on
    [exchange]. *)
Definition fetches_once {A : Type} (exchange : Instance) (m : M A) : Prop :=
  ∀ w, ∃ f : option Event,
    (m w).2 = mkWorld (exchange_instances w) (next_id w) (trace w ++ option_list f) ∧
    ∀ ev, f = Some ev → fetched_on ev = Some exchange.

(** A string without a line break. *)
Definition one_line (s : string) : bool := negb (contains newline s).

(** ** Sample data: a library that answers every fetch *)

Definition sample_ticker (symbol : string) (last : Q) (volume : pyval) : Ticker :=
  {[ "symbol" := PStr symbol; "last" := PFloat last; "baseVolume" := volume ]}.

Definition sample_tickers : list (string * Ticker) :=
  [ ("ETH/USDT", sample_ticker "ETH/USDT" (3500 # 1) (PFloat (40 # 1)));
    ("BTC/USDT", sample_ticker "BTC/USDT" (194001 # 2) (PFloat (75 # 2)));
    ("XRP/USDT", sample_ticker "XRP/USDT" (1 # 2) PNone);
    ("SOL/USDT", sample_ticker "SOL/USDT" (150 # 1) (PInt 40));
    ("ADA/USDT", {[ "symbol" := PStr "ADA/USDT" ]}) ].

(** One decimal digit, which is how Python prints the sample values. *)
Definition sample_float_repr (q : Q) : string :=
  let n := Qnum q in
  let d := Zpos (Qden q) in
  pretty (n / d) +:+ "." +:+ pretty ((n mod d) * 10 / d).

Definition sample_runtime : Runtime := {|
  ccxt_fetch_ticker := λ _ symbol,
    if decide (symbol = "DOGE/XYZ")
    then inl (BaseError "binance does not have market symbol DOGE/XYZ")
    else inr (sample_ticker symbol (194001 # 2) (PFloat (75 # 2)));
  ccxt_fetch_tickers := λ _, inr sample_tickers;
  float_repr := sample_float_repr;
  int_of_str := λ _, inl (ValueError "invalid literal for int() with base 10");
  float_of_str := λ _, inl (ValueError "could not convert string to float")
|}.

(** A second library, for the edges: its tickers carry no last price;
    the ticker collection fails on binance, is empty on kraken and holds
    a volume that is no number elsewhere. *)
Definition edge_tickers : list (string * Ticker) :=
  [ ("ETH/USDT", sample_ticker "ETH/USDT" (3500 # 1) (PFloat (40 # 1)));
    ("BTC/USDT", sample_ticker "BTC/USDT" (194001 # 2) (PStr "n/a"));
    ("SOL/USDT", sample_ticker "SOL/USDT" (150 # 1) (PInt 40)) ].

Definition edge_runtime : Runtime := {|
  ccxt_fetch_ticker := λ _ symbol, inr {[ "symbol" := PStr symbol ]};
  ccxt_fetch_tickers := λ i,
    match inst_class i with
    | binance => inl (BaseError "binance GET /api/v3/ticker/24hr 503")
    | kraken => inr []
    | _ => inr edge_tickers
    end;
  float_repr := sample_float_repr;
  int_of_str := λ _, inl (ValueError "invalid literal for int() with base 10");
  float_of_str := λ s, inl (ValueError ("could not convert string to float: " +:+ s))
|}.

(** The world after the first resolution of [k]. *)
Definition resolved_world (k : string) (cls : ExchangeClass) : World :=
  mkWorld [(k, mkInstance 0 cls)] 1 [Construct (mkInstance 0 cls)].

Ltac run :=
  cbv [mbind M_bind mret M_ret raise lift get_instances py_lower py_upper
       construct store log close clear fst snd].

(** * Properties *)

(** ** Strings *)

Lemma ascii_lower_idemp (c : ascii) : ascii_lower (ascii_lower c) = ascii_lower c.
Proof. destruct c as [[] [] [] [] [] [] [] []]; reflexivity. Qed.

Lemma lower_idemp (s : string) : lower (lower s) = lower s.
Proof.
  induction s as [|c s IH]; simpl; [reflexivity|].
  unfold lower in *. simpl. by rewrite ascii_lower_idemp, IH.
Qed.

Lemma ascii_upper_is_slash (c : ascii) :
  bool_decide (ascii_upper c = slash) = bool_decide (c = slash).
Proof. destruct c as [[] [] [] [] [] [] [] []]; reflexivity. Qed.

Lemma contains_cons (sep c : ascii) (s : string) :
  contains sep (String c s) = bool_decide (c = sep) || contains sep s.
Proof. simpl. by case_decide; [rewrite bool_decide_eq_true_2|rewrite bool_decide_eq_false_2]. Qed.

Lemma contains_upper_slash (s : string) : contains slash (upper s) = contains slash s.
Proof.
  induction s as [|c s IH]; [reflexivity|].
  change (upper (String c s)) with (String (ascii_upper c) (upper s)).
  by rewrite !contains_cons, ascii_upper_is_slash, IH.
Qed.

Lemma contains_app (sep : ascii) (a b : string) :
  contains sep (a +:+ b) = contains sep a || contains sep b.
Proof.
  induction a as [|c a IH]; [reflexivity|].
  simpl. case_decide; [reflexivity|apply IH].
Qed.

Lemma upper_app (a b : string) : upper (a +:+ b) = upper a +:+ upper b.
Proof.
  induction a as [|c a IH]; [reflexivity|].
  unfold upper in *. simpl. by rewrite IH.
Qed.


Lemma split_at_first (sep : ascii) (a b : string) :
  contains sep a = false →
  split sep (a +:+ String sep b) = a :: split sep b.
Proof.
  induction a as [|c a IH]; simpl.
  - intros _. by rewrite decide_True.
  - case_decide; [discriminate|]. intros Ha. by rewrite (IH Ha).
Qed.

(** ** Dictionaries in insertion order *)

Lemma dict_set_fresh {V : Type} (k : string) (v : V) (d : list (string * V)) :
  dict_lookup k d = None → dict_set k v d = d ++ [(k, v)].
Proof.
  induction d as [|[k' v'] d IH]; simpl; [reflexivity|].
  case_decide; [discriminate|]. intros Hd. by rewrite (IH Hd).
Qed.

Lemma dict_lookup_snoc {V : Type} (k k' : string) (v : V) (d : list (string * V)) :
  dict_lookup k (d ++ [(k', v)]) =
  match dict_lookup k d with
  | Some x => Some x
  | None => if decide (k = k') then Some v else None
  end.
Proof.
  induction d as [|[k0 v0] d IH]; simpl; [reflexivity|].
  destruct (decide (k = k0)); [reflexivity|apply IH].
Qed.

Lemma dict_lookup_None {V : Type} (k : string) (d : list (string * V)) :
  dict_lookup k d = None ↔ k ∉ dict_keys d.
Proof.
  unfold dict_keys. induction d as [|[k' v'] d IH]; simpl.
  - split; [intros _; apply not_elem_of_nil|done].
  - rewrite not_elem_of_cons. case_decide; [|tauto].
    split; [discriminate|]. intros [Hne _]. by destruct Hne.
Qed.

(** ** The exchange resolver *)

Section Resolver.
Context {rt : Runtime}.

(** A supported identifier that is not cached: a new instance of the
    registered class is constructed and appended to the cache. *)
Lemma get_exchange_miss (s : string) (cls : ExchangeClass) (w : World) :
  dict_lookup (lower s) SUPPORTED_EXCHANGES = Some cls →
  dict_lookup (lower s) (exchange_instances w) = None →
  get_exchange (PStr s) w =
    (Returned (mkInstance (next_id w) cls),
     mkWorld (exchange_instances w ++ [(lower s, mkInstance (next_id w) cls)])
             (S (next_id w))
             (trace w ++ [Construct (mkInstance (next_id w) cls)])).
Proof.
  intros Hreg Hmiss. unfold get_exchange. run.
  rewrite Hreg. run. rewrite Hmiss. run.
  cbn [exchange_instances next_id trace].
  rewrite (dict_set_fresh _ _ _ Hmiss), dict_lookup_snoc, Hmiss.
  by rewrite decide_True.
Qed.

(** A supported identifier that is cached: the cached instance, and
    nothing else happens. *)
Lemma get_exchange_hit (s : string) (cls : ExchangeClass) (i : Instance) (w : World) :
  dict_lookup (lower s) SUPPORTED_EXCHANGES = Some cls →
  dict_lookup (lower s) (exchange_instances w) = Some i →
  get_exchange (PStr s) w = (Returned i, w).
Proof.
  intros Hreg Hhit. unfold get_exchange. run.
  rewrite Hreg. run. rewrite Hhit. run. by rewrite Hhit.
Qed.

Lemma get_exchange_unsupported (s : string) (w : World) :
  dict_lookup (lower s) SUPPORTED_EXCHANGES = None →
  get_exchange (PStr s) w =
    (Raised (ValueError ("Unsupported exchange: " +:+ lower s)), w).
Proof. intros Hreg. unfold get_exchange. run. by rewrite Hreg. Qed.

Lemma get_exchange_not_str (v : pyval) (w : World) :
  (∀ s, v ≠ PStr s) → get_exchange v w = (Raised AttributeError, w).
Proof. intros Hv. destruct v; try reflexivity. by destruct (Hv s). Qed.

(** A string whose lower-case form is a registry key always resolves. *)
Lemma get_exchange_supported (s : string) (cls : ExchangeClass) (w : World) :
  dict_lookup (lower s) SUPPORTED_EXCHANGES = Some cls →
  ∃ i w1, get_exchange (PStr s) w = (Returned i, w1).
Proof.
  intros Hreg.
  destruct (dict_lookup (lower s) (exchange_instances w)) as [j|] eqn:Hc.
  - exists j, w. by apply (get_exchange_hit s cls).
  - eexists _, _. by apply (get_exchange_miss s cls).
Qed.

(** Whatever the argument, a returned instance was resolved from a
    string whose lower-case form is a registry key. *)
Lemma get_exchange_returned (v : pyval) (w w1 : World) (i : Instance) :
  get_exchange v w = (Returned i, w1) →
  ∃ s cls, v = PStr s ∧ dict_lookup (lower s) SUPPORTED_EXCHANGES = Some cls ∧
           dict_lookup (lower s) (exchange_instances w1) = Some i.
Proof.
  destruct v as [| | | |s]; try (by rewrite get_exchange_not_str).
  intros H. exists s.
  destruct (dict_lookup (lower s) SUPPORTED_EXCHANGES) as [cls|] eqn:Hreg;
    [|by rewrite get_exchange_unsupported in H].
  exists cls. split; [done|]. split; [done|].
  destruct (dict_lookup (lower s) (exchange_instances w)) as [j|] eqn:Hc.
  - rewrite (get_exchange_hit _ _ _ _ Hreg Hc) in H. by simplify_eq.
  - rewrite (get_exchange_miss _ _ _ Hreg Hc) in H. simplify_eq. simpl.
    by rewrite dict_lookup_snoc, Hc, decide_True.
Qed.

End Resolver.

Section ResolverClaims.
Context {rt : Runtime}.

Lemma cache_ok_ids_fresh (w : World) (cls : ExchangeClass) :
  cache_ok w → mkInstance (next_id w) cls ∉ dict_values (exchange_instances w).
Proof.
  intros (_ & Hall & _) Hin. unfold dict_values in Hin.
  apply list_elem_of_fmap in Hin as [[k i] [Hi Hin]].
  rewrite Forall_forall in Hall. apply Hall in Hin as [_ Hlt].
  simpl in Hi, Hlt. subst i. simpl in Hlt. lia.
Qed.

Lemma cache_ok_lookup_class (w : World) (k : string) (i : Instance) :
  cache_ok w → dict_lookup k (exchange_instances w) = Some i →
  dict_lookup k SUPPORTED_EXCHANGES = Some (inst_class i).
Proof.
  intros (_ & Hall & _). induction Hall as [|[k' j] d [Hc _] _ IH]; simpl; [done|].
  case_decide; [|done]. intros [= ->]. by subst k'.
Qed.

Lemma cache_ok_miss (w : World) (k : string) (cls : ExchangeClass) :
  cache_ok w →
  dict_lookup k SUPPORTED_EXCHANGES = Some cls →
  dict_lookup k (exchange_instances w) = None →
  cache_ok (mkWorld (exchange_instances w ++ [(k, mkInstance (next_id w) cls)])
                    (S (next_id w))
                    (trace w ++ [Construct (mkInstance (next_id w) cls)])).
Proof.
  intros (Hnd & Hall & Hlive) Hreg Hmiss. split; [|split]; simpl.
  - unfold dict_keys in *. rewrite fmap_app. simpl.
    apply NoDup_app. split; [done|]. split; [|apply NoDup_singleton].
    intros x Hx Hk. apply list_elem_of_singleton in Hk as ->.
    by apply dict_lookup_None in Hmiss.
  - apply Forall_app. split.
    + eapply Forall_impl; [exact Hall|]. intros [k' j] [Hc Hlt]. split; [done|]. simpl in *. lia.
    + apply Forall_singleton. split; simpl; [done|lia].
  - intros i [Hcon Hclo]. simpl in Hcon, Hclo.
    unfold dict_values. rewrite fmap_app. apply elem_of_app.
    apply elem_of_app in Hcon as [Hcon|Hcon].
    + left. apply Hlive. split; [done|]. intros Hc. apply Hclo, elem_of_app. by left.
    + right. apply list_elem_of_singleton in Hcon. injection Hcon as ->.
      by apply list_elem_of_singleton.
Qed.

(** The registry gives every class to one key only. *)
Lemma registry_key_unique (k1 k2 : string) (cls : ExchangeClass) :
  dict_lookup k1 SUPPORTED_EXCHANGES = Some cls →
  dict_lookup k2 SUPPORTED_EXCHANGES = Some cls →
  k1 = k2.
Proof.
  unfold SUPPORTED_EXCHANGES. simpl.
  repeat case_decide; intros; simplify_eq; done.
Qed.

Lemma dict_lookup_elem {V : Type} (k : string) (v : V) (d : list (string * V)) :
  NoDup (dict_keys d) → (k, v) ∈ d → dict_lookup k d = Some v.
Proof.
  unfold dict_keys. induction d as [|[k' v'] d IH]; simpl.
  - intros _ Hin. by apply elem_of_nil in Hin.
  - intros Hnd Hin. apply NoDup_cons in Hnd as [Hk' Hnd].
    apply elem_of_cons in Hin as [Heq|Hin].
    + injection Heq as -> ->. by rewrite decide_True.
    + case_decide as Hk; [|by apply IH].
      subst k'. destruct Hk'. apply list_elem_of_fmap. by exists (k, v).
Qed.

(** Under the invariant, the live instances of the class of an
    identifier are the one cached for it. *)
Lemma cache_ok_live_unique (w : World) (k : string) (cls : ExchangeClass)
    (i j : Instance) :
  cache_ok w →
  dict_lookup k SUPPORTED_EXCHANGES = Some cls →
  dict_lookup k (exchange_instances w) = Some i →
  live w j → inst_class j = cls → j = i.
Proof.
  intros (Hnd & Hall & Hlive) Hreg Hc Hj Hcls.
  apply Hlive in Hj. unfold dict_values in Hj.
  apply list_elem_of_fmap in Hj as ([k' j'] & -> & Hin). simpl in *.
  rewrite Forall_forall in Hall. destruct (Hall _ Hin) as [Hreg' _]. simpl in Hreg'.
  rewrite Hcls in Hreg'.
  rewrite (registry_key_unique k' k cls Hreg' Hreg) in Hin.
  rewrite (dict_lookup_elem k j' _ Hnd Hin) in Hc. by injection Hc.
Qed.

(** C7: the cache holds one entry per identifier, and the live instances
    are the cached ones.  The first resolution of a supported identifier
    constructs a new instance and appends it to the cache; a resolution
    that finds the identifier cached returns that instance and leaves the
    world alone, and so does every later resolution of any spelling of
    it; after the resolution the returned instance is the only live
    instance of the identifier's class. *)
Theorem get_exchange_one_instance_per_identifier
    (s : string) (cls : ExchangeClass) (w : World) :
  dict_lookup (lower s) SUPPORTED_EXCHANGES = Some cls →
  cache_ok w →
  ∃ i w1,
    get_exchange (PStr s) w = (Returned i, w1) ∧
    cache_ok w1 ∧
    dict_lookup (lower s) (exchange_instances w1) = Some i ∧
    (dict_lookup (lower s) (exchange_instances w) = None →
       i = mkInstance (next_id w) cls ∧
       (i ∉ dict_values (exchange_instances w)) ∧
       exchange_instances w1 = exchange_instances w ++ [(lower s, i)] ∧
       trace w1 = trace w ++ [Construct i]) ∧
    (∀ j, dict_lookup (lower s) (exchange_instances w) = Some j → i = j ∧ w1 = w) ∧
    (∀ s', lower s' = lower s → get_exchange (PStr s') w1 = (Returned i, w1)) ∧
    (∀ j, live w1 j → inst_class j = cls → j = i).
Proof.
  intros Hreg Hok.
  destruct (dict_lookup (lower s) (exchange_instances w)) as [j|] eqn:Hc.
  - exists j, w. rewrite (get_exchange_hit _ _ _ _ Hreg Hc).
    split; [reflexivity|]. split; [done|]. split; [done|].
    split; [done|]. split; [by intros j' [= ->]|]. split.
    + intros s' Hs'. apply (get_exchange_hit _ cls); by rewrite Hs'.
    + intros j' Hlive Hcls. by apply (cache_ok_live_unique w (lower s) cls).
  - pose proof (cache_ok_miss w (lower s) cls Hok Hreg Hc) as Hok1.
    eexists _, _. rewrite (get_exchange_miss _ _ _ Hreg Hc).
    split; [reflexivity|]. split; [exact Hok1|].
    simpl. rewrite dict_lookup_snoc, Hc, decide_True by done.
    split; [reflexivity|]. split.
    { intros _. split; [reflexivity|]. split; [by apply cache_ok_ids_fresh|done]. }
    split; [done|]. split.
    + intros s' Hs'. apply (get_exchange_hit _ cls); rewrite Hs'; [done|].
      simpl. by rewrite dict_lookup_snoc, Hc, decide_True.
    + intros j' Hlive Hcls.
      apply (cache_ok_live_unique _ (lower s) cls _ _ Hok1 Hreg); [|done|done].
      simpl. by rewrite dict_lookup_snoc, Hc, decide_True.
Qed.

(** C5: every spelling of a supported identifier resolves like its
    lower-case form, to an instance of the class registered for it. *)
Theorem get_exchange_any_letter_case
    (s : string) (cls : ExchangeClass) (w : World) :
  dict_lookup (lower s) SUPPORTED_EXCHANGES = Some cls →
  cache_ok w →
  ∃ i w1,
    get_exchange (PStr s) w = (Returned i, w1) ∧
    get_exchange (PStr (lower s)) w = (Returned i, w1) ∧
    inst_class i = cls.
Proof.
  intros Hreg Hok.
  destruct (dict_lookup (lower s) (exchange_instances w)) as [j|] eqn:Hc.
  - exists j, w. rewrite (get_exchange_hit s cls j w Hreg Hc).
    rewrite (get_exchange_hit (lower s) cls j w) by (by rewrite lower_idemp).
    repeat split.
    pose proof (cache_ok_lookup_class _ _ _ Hok Hc) as Hcls.
    rewrite Hreg in Hcls. by injection Hcls.
  - eexists _, _. rewrite (get_exchange_miss s cls w Hreg Hc).
    rewrite (get_exchange_miss (lower s) cls w) by (by rewrite lower_idemp).
    by rewrite lower_idemp.
Qed.

(** C9: the registry entry for "ftx" is the hyperliquid connector, and
    resolving "ftx" constructs an instance of that class. *)
Theorem get_exchange_ftx_is_hyperliquid (w : World) :
  dict_lookup "ftx" (exchange_instances w) = None →
  dict_lookup "ftx" SUPPORTED_EXCHANGES = Some hyperliquid ∧
  get_exchange (PStr "ftx") w =
    (Returned (mkInstance (next_id w) hyperliquid),
     mkWorld (exchange_instances w ++ [("ftx", mkInstance (next_id w) hyperliquid)])
             (S (next_id w))
             (trace w ++ [Construct (mkInstance (next_id w) hyperliquid)])).
Proof.
  intros Hc. split; [reflexivity|].
  by apply (get_exchange_miss "ftx" hyperliquid w).
Qed.

End ResolverClaims.

(** ** Every step of the [try] body only adds to the cache and the trace *)

Create HintDb mono discriminated.

Section Monotone.
Context {rt : Runtime}.

Lemma grows_refl (w : World) : grows w w.
Proof.
  exists []. split; [by rewrite app_nil_r|]. split; [done|].
  intros i Hi. by apply elem_of_nil in Hi.
Qed.

Lemma grows_trans (w1 w2 w3 : World) : grows w1 w2 → grows w2 w3 → grows w1 w3.
Proof.
  intros (evs1 & Ht1 & Hc1 & Hn1) (evs2 & Ht2 & Hc2 & Hn2).
  exists (evs1 ++ evs2). split; [by rewrite Ht2, Ht1, app_assoc|].
  split; [auto|].
  intros i Hi. apply elem_of_app in Hi as [Hi|Hi]; auto.
Qed.

Lemma monotone_ret {A : Type} (a : A) : monotone (mret a).
Proof. intros w. apply grows_refl. Qed.

Lemma monotone_raise {A : Type} (e : exn) : monotone (@raise A e).
Proof. intros w. apply grows_refl. Qed.

Lemma monotone_lift {A : Type} (r : exn + A) : monotone (lift r).
Proof. destruct r; [apply monotone_raise|apply monotone_ret]. Qed.

Lemma monotone_bind {A B : Type} (m : M A) (f : A → M B) :
  monotone m → (∀ a, monotone (f a)) → monotone (m ≫= f).
Proof.
  intros Hm Hf w. specialize (Hm w). run.
  destruct (m w) as [[a|e] w1]; simpl in *; [|done].
  eapply grows_trans; [exact Hm|apply Hf].
Qed.

Lemma monotone_log (ev : Event) : (∀ i, ev ≠ Construct i) → monotone (log ev).
Proof.
  intros Hev w. exists [ev]. split; [done|]. split; [done|].
  intros i Hi. apply list_elem_of_singleton in Hi. by destruct (Hev i).
Qed.

Lemma monotone_fetch_ticker (exchange : Instance) (symbol : string) :
  monotone (fetch_ticker exchange symbol).
Proof.
  apply monotone_bind; [by apply monotone_log|intros _; apply monotone_lift].
Qed.

Lemma monotone_fetch_tickers (exchange : Instance) : monotone (fetch_tickers exchange).
Proof.
  apply monotone_bind; [by apply monotone_log|intros _; apply monotone_lift].
Qed.

Lemma monotone_get_exchange (v : pyval) : monotone (get_exchange v).
Proof.
  intros w. destruct v as [| | | |s]; try apply grows_refl.
  destruct (dict_lookup (lower s) SUPPORTED_EXCHANGES) as [cls|] eqn:Hreg;
    [|rewrite get_exchange_unsupported by done; apply grows_refl].
  destruct (dict_lookup (lower s) (exchange_instances w)) as [j|] eqn:Hc.
  - rewrite (get_exchange_hit _ _ _ _ Hreg Hc). apply grows_refl.
  - rewrite (get_exchange_miss _ _ _ Hreg Hc). simpl.
    exists [Construct (mkInstance (next_id w) cls)]. split; [done|]. simpl.
    unfold dict_values. rewrite fmap_app. split.
    + intros i Hi. apply elem_of_app. by left.
    + intros i Hi. apply list_elem_of_singleton in Hi. injection Hi as ->.
      apply elem_of_app. right. by apply list_elem_of_singleton.
Qed.

Lemma monotone_format_ticker (ticker : Ticker) (exchange_id : pyval) :
  monotone (format_ticker ticker exchange_id).
Proof.
  apply monotone_bind; [apply monotone_lift|intros ex; apply monotone_ret].
Qed.

Hint Resolve monotone_ret monotone_raise monotone_lift monotone_fetch_ticker
  monotone_fetch_tickers monotone_get_exchange monotone_format_ticker : mono.

Lemma monotone_format_all (tickers : list Ticker) (exchange_id : pyval) :
  monotone (format_all tickers exchange_id).
Proof.
  induction tickers as [|t l IH]; simpl; [auto with mono|].
  repeat (apply monotone_bind; [auto with mono|intros ?]). auto with mono.
Qed.

Lemma monotone_tool_action (name : string) (arguments : ArgDict)
    (exchange_id : pyval) (exchange : Instance) :
  monotone (tool_action name arguments exchange_id exchange).
Proof.
  pose proof monotone_format_all as Hall.
  unfold tool_action. repeat case_decide;
    repeat (apply monotone_bind; [auto with mono|intros ?]); auto with mono.
Qed.

Lemma monotone_dispatch (name : string) (arguments : ArgDict) :
  monotone (dispatch name arguments).
Proof.
  unfold dispatch. case_decide; [auto with mono|].
  apply monotone_bind; [auto with mono|intros ?]. apply monotone_tool_action.
Qed.

End Monotone.

(** ** The [except] and [finally] clauses *)

Section Dispatcher.
Context {rt : Runtime}.

Lemma for_each_close (l : list Instance) (w : World) :
  for_each l close w =
    (Returned (), mkWorld (exchange_instances w) (next_id w) (trace w ++ (Close <$> l))).
Proof.
  revert w. induction l as [|i l IH]; intros w; simpl.
  - run. rewrite app_nil_r. by destruct w.
  - run. rewrite IH. simpl. by rewrite <- app_assoc.
Qed.

Lemma cleanup_run (w : World) : cleanup w = (Returned (), closed_world w).
Proof. unfold cleanup. run. by rewrite for_each_close. Qed.

Lemma handle_call_tool_run (name : string) (arguments : ArgDict) (w : World) :
  handle_call_tool name arguments w =
    (caught (dispatch name arguments w).1, closed_world (dispatch name arguments w).2).
Proof.
  unfold handle_call_tool, try_finally, try_except_BaseError.
  destruct (dispatch name arguments w) as [[a|e] w1]; simpl.
  - by rewrite cleanup_run.
  - destruct e; run; by rewrite cleanup_run.
Qed.

(** C2: whatever the tool name, the arguments, the answers of the library
    and the outcome, the call leaves the cache empty, and every instance
    that was cached when the call began or was constructed during it has
    been closed. *)
Theorem handle_call_tool_closes_and_empties_cache
    (name : string) (arguments : ArgDict) (w : World) :
  exchange_instances (handle_call_tool name arguments w).2 = [] ∧
  ∃ evs, trace (handle_call_tool name arguments w).2 = trace w ++ evs ∧
         ∀ i, i ∈ dict_values (exchange_instances w) ∨ Construct i ∈ evs →
              Close i ∈ evs.
Proof.
  rewrite handle_call_tool_run. simpl. split; [reflexivity|].
  destruct (monotone_dispatch name arguments w) as (evs & Ht & Hc & Hn).
  set (w1 := (dispatch name arguments w).2) in *.
  exists (evs ++ (Close <$> dict_values (exchange_instances w1))).
  split; [by rewrite Ht, app_assoc|].
  intros i Hi. apply elem_of_app. right. apply list_elem_of_fmap.
  exists i. split; [done|].
  destruct Hi as [Hi|Hi]; [by apply Hc|].
  apply elem_of_app in Hi as [Hi|Hi]; [by apply Hn|].
  apply list_elem_of_fmap in Hi as (j & Hj & _). discriminate.
Qed.

(** The state a call leaves is again a state with one entry per
    identifier, so the invariant holds whenever a call begins. *)
Lemma handle_call_tool_cache_ok (name : string) (arguments : ArgDict) (w : World) :
  cache_ok w → cache_ok (handle_call_tool name arguments w).2.
Proof.
  intros (_ & _ & Hlive). rewrite handle_call_tool_run.
  split; [constructor|]. split; [constructor|].
  intros i [Hcon Hclo]. exfalso. simpl in Hcon, Hclo.
  destruct (monotone_dispatch name arguments w) as (evs & Ht & Hc & Hn).
  set (w1 := (dispatch name arguments w).2) in *.
  assert (i ∈ dict_values (exchange_instances w1)) as Hin.
  { apply elem_of_app in Hcon as [Hcon|Hcon].
    - rewrite Ht in Hcon. apply elem_of_app in Hcon as [Hcon|Hcon]; [|by apply Hn].
      apply Hc, Hlive. split; [done|]. intros Hcl. apply Hclo.
      rewrite Ht, <- app_assoc. apply elem_of_app. by left.
    - apply list_elem_of_fmap in Hcon as (j & Hj & _). discriminate. }
  apply Hclo, elem_of_app. right. apply list_elem_of_fmap. by exists i.
Qed.

End Dispatcher.

(** ** The branches of the dispatcher *)

Section Branches.
Context {rt : Runtime}.

Lemma dispatch_list_exchanges (arguments : ArgDict) (w : World) :
  dispatch "list-exchanges" arguments w =
    (Returned [text_content
                 ("Supported exchanges:" +:+ nl +:+ nl +:+
                  join nl ((λ ex, "- " +:+ upper ex) <$> dict_keys SUPPORTED_EXCHANGES))],
     w).
Proof. reflexivity. Qed.

Lemma dispatch_resolves (name : string) (arguments : ArgDict) (w : World) :
  name ≠ "list-exchanges" →
  dispatch name arguments w =
    (get_exchange (dict_get arguments "exchange" (PStr "binance")) ≫=
     tool_action name arguments (dict_get arguments "exchange" (PStr "binance"))) w.
Proof. intros Hn. unfold dispatch. by rewrite decide_False. Qed.

Lemma dispatch_resolved (name : string) (arguments : ArgDict) (w w1 : World)
    (i : Instance) :
  name ≠ "list-exchanges" →
  get_exchange (dict_get arguments "exchange" (PStr "binance")) w = (Returned i, w1) →
  dispatch name arguments w =
    tool_action name arguments (dict_get arguments "exchange" (PStr "binance")) i w1.
Proof. intros Hn Hex. rewrite dispatch_resolves by done. run. by rewrite Hex. Qed.

Lemma dispatch_unresolved (name : string) (arguments : ArgDict) (w w1 : World)
    (e : exn) :
  name ≠ "list-exchanges" →
  get_exchange (dict_get arguments "exchange" (PStr "binance")) w = (Raised e, w1) →
  dispatch name arguments w = (Raised e, w1).
Proof. intros Hn Hex. rewrite dispatch_resolves by done. run. by rewrite Hex. Qed.

Lemma tool_action_unknown (name : string) (arguments : ArgDict)
    (exchange_id : pyval) (exchange : Instance) (w : World) :
  name ∉ TOOL_NAMES →
  tool_action name arguments exchange_id exchange w =
    (Raised (ValueError ("Unknown tool: " +:+ name)), w).
Proof.
  intros Hn. unfold TOOL_NAMES in Hn. rewrite !not_elem_of_cons in Hn.
  destruct Hn as (? & ? & ? & _).
  unfold tool_action. by rewrite !decide_False.
Qed.

(** C6: for any arguments, list-exchanges returns one text block whose
    text is the heading, a blank line and one bulleted line per registry
    key, in upper case and in registry order; the call constructs no
    instance and fetches nothing: the only events are the closings of
    what the cache already held. *)
Theorem list_exchanges_is_the_registry (arguments : ArgDict) (w : World) :
  handle_call_tool "list-exchanges" arguments w =
    (Returned [mkTextContent "text"
                 (text_of_lines
                    [ "Supported exchanges:"; "";
                      "- BINANCE"; "- COINBASE"; "- KRAKEN"; "- KUCOIN"; "- FTX";
                      "- HUOBI"; "- BITFINEX"; "- BYBIT"; "- OKX"; "- MEXC" ])],
     mkWorld [] (next_id w)
             (trace w ++ (Close <$> dict_values (exchange_instances w)))) ∧
  dict_keys SUPPORTED_EXCHANGES =
    [ "binance"; "coinbase"; "kraken"; "kucoin"; "ftx";
      "huobi"; "bitfinex"; "bybit"; "okx"; "mexc" ].
Proof.
  split; [|reflexivity].
  by rewrite handle_call_tool_run, dispatch_list_exchanges.
Qed.


(** C1, as the code has it: the [except] clause names [ccxt.BaseError]
    only.  An unknown tool name (with an exchange that resolves) and an
    ASCII exchange string that is no registry key in any letter case
    (for a tool other than list-exchanges) leave [handle_call_tool] as a
    raised [ValueError]; an error of the library is returned as text,
    and no other exception is. *)
Theorem value_errors_are_raised (name : string) (arguments : ArgDict) (w : World) :
  (name ∉ TOOL_NAMES →
   (∃ i w1, get_exchange (dict_get arguments "exchange" (PStr "binance")) w
            = (Returned i, w1)) →
   (handle_call_tool name arguments w).1 = Raised (ValueError ("Unknown tool: " +:+ name))) ∧
  (∀ e, name ≠ "list-exchanges" →
        arguments !! "exchange" = Some (PStr e) →
        ascii_only e = true →
        dict_lookup (lower e) SUPPORTED_EXCHANGES = None →
        (handle_call_tool name arguments w).1 =
          Raised (ValueError ("Unsupported exchange: " +:+ lower e))) ∧
  (∀ msg, (dispatch name arguments w).1 = Raised (BaseError msg) →
          (handle_call_tool name arguments w).1 =
            Returned [mkTextContent "text"
                        ("Error accessing cryptocurrency data: " +:+ msg)]) ∧
  (∀ e, (∀ msg, e ≠ BaseError msg) →
        (dispatch name arguments w).1 = Raised e →
        (handle_call_tool name arguments w).1 = Raised e).
Proof.
  rewrite handle_call_tool_run. simpl. split; [|split; [|split]].
  - intros Hname (i & w1 & Hex).
    assert (name ≠ "list-exchanges") as Hn.
    { intros ->. apply Hname. unfold TOOL_NAMES. rewrite !elem_of_cons. tauto. }
    rewrite (dispatch_resolved _ _ _ _ _ Hn Hex).
    by rewrite tool_action_unknown.
  - intros e Hn Harg _ Hreg.
    assert (dict_get arguments "exchange" (PStr "binance") = PStr e) as Hid.
    { unfold dict_get. by rewrite Harg. }
    rewrite (dispatch_unresolved name arguments w w
               (ValueError ("Unsupported exchange: " +:+ lower e))); [done|done|].
    rewrite Hid. by apply get_exchange_unsupported.
  - by intros msg ->.
  - intros e He ->. destruct e; try reflexivity. by destruct (He msg).
Qed.

End Branches.

(** ** get-price *)



Section GetPrice.
Context {rt : Runtime}.

Lemma get_price_run (arguments : ArgDict) (exchange_id symbol : string)
    (exchange : Instance) (ticker : Ticker) (w : World) :
  dict_get arguments "symbol" (PStr "") = PStr symbol →
  ccxt_fetch_ticker exchange (upper symbol) = inr ticker →
  tool_action "get-price" arguments (PStr exchange_id) exchange w =
    (match ticker !! "last" with
     | None => Raised (KeyError "last")
     | Some last =>
         match split slash (upper symbol) !! 1%nat with
         | None => Raised IndexError
         | Some quote =>
             Returned [text_content
                         ("Current price of " +:+ upper symbol +:+ " on " +:+
                          upper exchange_id +:+ ": " +:+ py_str last +:+ " " +:+ quote)]
         end
     end,
     mkWorld (exchange_instances w) (next_id w)
             (trace w ++ [FetchTicker exchange (upper symbol)])).
Proof.
  intros Hsym Hfetch. unfold tool_action. rewrite decide_True by done.
  rewrite Hsym. unfold fetch_ticker. run. rewrite Hfetch.
  unfold py_getitem, py_index.
  destruct (ticker !! "last") as [last|]; [|done].
  by destruct (split slash (upper symbol) !! 1%nat).
Qed.



End GetPrice.

(** ** The stable descending sort *)

Section Sorting.
Context {A : Type}.

Implicit Types (x y : Q * A) (l : list (Q * A)).







(** From the decorated list back to the elements. *)
Variable key : A → exn + Q.







End Sorting.

(** ** get-top-volumes *)

Section TopVolumes.
Context {rt : Runtime}.

Lemma format_all_run (tickers : list Ticker) (exchange_id : string) (w : World) :
  format_all tickers (PStr exchange_id) w =
    (Returned (ticker_text (upper exchange_id) <$> tickers), w).
Proof.
  induction tickers as [|t l IH]; [reflexivity|].
  simpl format_all. unfold format_ticker. run. by rewrite IH.
Qed.











End TopVolumes.

(** * Concrete runs *)

Example split_pair : split slash "BTC/USDT" = ["BTC"; "USDT"].
Proof. reflexivity. Qed.

Example split_no_slash : split slash "BTCUSDT" = ["BTCUSDT"].
Proof. reflexivity. Qed.

Example split_empty : split slash "" = [""].
Proof. reflexivity. Qed.

Example lower_mixed : lower "BiNaNcE-01" = "binance-01".
Proof. reflexivity. Qed.

Example str_of_negative_int : py_str (rt := sample_runtime) (PInt (-12)) = "-12".
Proof. by vm_compute. Qed.

Example slice_negative : slice_to [1; 2; 3; 4] (-1) = [1; 2; 3].
Proof. reflexivity. Qed.

Example int_truncates_towards_zero :
  py_int (rt := sample_runtime) (PFloat (-7 # 2)) = inr (-3).
Proof. reflexivity. Qed.

(** Equal volumes (ETH 40.0 and SOL 40) stay in fetch order; the null
    and the missing volume come last. *)
Example sorted_reverse_sample :
  ∃ sorted,
    sorted_reverse (volume_key (rt := sample_runtime)) (dict_values sample_tickers)
      = inr sorted ∧
    (λ x, dict_get x "symbol" PNone) <$> sorted
      = [PStr "ETH/USDT"; PStr "SOL/USDT"; PStr "BTC/USDT";
         PStr "XRP/USDT"; PStr "ADA/USDT"].
Proof. eexists. split; [reflexivity|by vm_compute]. Qed.

Example unknown_tool_trace :
  handle_call_tool (rt := sample_runtime) "get-balance" ∅ initial_world =
    (Raised (ValueError "Unknown tool: get-balance"),
     mkWorld [] 1 [Construct (mkInstance 0 binance); Close (mkInstance 0 binance)]).
Proof. by vm_compute. Qed.

Lemma initial_world_ok : cache_ok initial_world.
Proof.
  split; [constructor|]. split; [constructor|].
  intros i [Hcon _]. by apply elem_of_nil in Hcon.
Qed.

Example float_of_Z_exact : float_of_Z (2 ^ 53 - 1) = inr (inject_Z (2 ^ 53 - 1)).
Proof. vm_compute; reflexivity. Qed.

Example float_of_Z_rounds_to_even :
  float_of_Z (2 ^ 53 + 1) = inr (inject_Z (2 ^ 53)) ∧
  float_of_Z (2 ^ 53 + 3) = inr (inject_Z (2 ^ 53 + 4)) ∧
  float_of_Z (- (2 ^ 53 + 1)) = inr (inject_Z (- 2 ^ 53)).
Proof. repeat split; vm_compute; reflexivity. Qed.

Example float_of_Z_overflows :
  float_of_Z (2 ^ 1024) = inl OverflowError ∧
  float_of_Z (2 ^ 1024 - 1) = inl OverflowError ∧
  float_of_Z (2 ^ 1024 - 2 ^ 971) = inr (inject_Z (2 ^ 1024 - 2 ^ 971)).
Proof. repeat split; vm_compute; reflexivity. Qed.

Lemma list_exchanges_is_the_registry_witness :
  handle_call_tool (rt := sample_runtime) "list-exchanges"
    {[ "exchange" := PStr "dogecoinex"; "symbol" := PInt 7 ]}
    (mkWorld [("kraken", mkInstance 0 kraken)] 1 [Construct (mkInstance 0 kraken)]) =
    (Returned [mkTextContent "text"
                 (text_of_lines
                    [ "Supported exchanges:"; "";
                      "- BINANCE"; "- COINBASE"; "- KRAKEN"; "- KUCOIN"; "- FTX";
                      "- HUOBI"; "- BITFINEX"; "- BYBIT"; "- OKX"; "- MEXC" ])],
     mkWorld [] 1 [Construct (mkInstance 0 kraken); Close (mkInstance 0 kraken)]).
Proof.
  apply (list_exchanges_is_the_registry (rt := sample_runtime)
           {[ "exchange" := PStr "dogecoinex"; "symbol" := PInt 7 ]}
           (mkWorld [("kraken", mkInstance 0 kraken)] 1
                    [Construct (mkInstance 0 kraken)])).
Defined.

(** C1 as the specification has it fails: an unsupported exchange and an
    unknown tool name leave [handle_call_tool] as a raised [ValueError],
    not as a returned text. *)
Lemma value_error_is_not_returned_as_text :
  (handle_call_tool (rt := sample_runtime) "get-price"
     {[ "symbol" := PStr "BTC/USDT"; "exchange" := PStr "dogecoinex" ]}
     initial_world).1
    = Raised (ValueError "Unsupported exchange: dogecoinex") ∧
  (handle_call_tool (rt := sample_runtime) "get-balance" ∅ initial_world).1
    = Raised (ValueError "Unknown tool: get-balance") ∧
  ¬ (∃ content,
       (handle_call_tool (rt := sample_runtime) "get-price"
          {[ "symbol" := PStr "BTC/USDT"; "exchange" := PStr "dogecoinex" ]}
          initial_world).1 = Returned content).
Proof.
  split; [by vm_compute|]. split; [by vm_compute|].
  intros [content Hc]. vm_compute in Hc. discriminate.
Qed.

Lemma value_errors_are_raised_witness :
  (handle_call_tool (rt := sample_runtime) "get-balance" ∅ initial_world).1
    = Raised (ValueError "Unknown tool: get-balance") ∧
  (handle_call_tool (rt := sample_runtime) "get-market-summary"
     {[ "symbol" := PStr "BTC/USDT"; "exchange" := PStr "DogeCoinEx" ]}
     initial_world).1
    = Raised (ValueError "Unsupported exchange: dogecoinex") ∧
  (handle_call_tool (rt := sample_runtime) "get-price"
     {[ "symbol" := PStr "doge/xyz" ]} initial_world).1
    = Returned [mkTextContent "text"
        "Error accessing cryptocurrency data: binance does not have market symbol DOGE/XYZ"].
Proof.
  split; [|split].
  - destruct (value_errors_are_raised (rt := sample_runtime) "get-balance" ∅
                initial_world) as (Hunknown & _).
    apply Hunknown.
    + unfold TOOL_NAMES. rewrite !not_elem_of_cons. repeat split; try discriminate.
      apply not_elem_of_nil.
    + eexists _, _. reflexivity.
  - destruct (value_errors_are_raised (rt := sample_runtime) "get-market-summary"
                {[ "symbol" := PStr "BTC/USDT"; "exchange" := PStr "DogeCoinEx" ]}
                initial_world) as (_ & Hunsupported & _ & _).
    apply (Hunsupported "DogeCoinEx").
    + discriminate.
    + by vm_compute.
    + reflexivity.
    + reflexivity.
  - destruct (value_errors_are_raised (rt := sample_runtime) "get-price"
                {[ "symbol" := PStr "doge/xyz" ]} initial_world)
      as (_ & _ & Hlibrary & _).
    apply (Hlibrary "binance does not have market symbol DOGE/XYZ").
    by vm_compute.
Defined.


(** Integer volumes beyond 2^53 that round to one float are a tie for
    the sort: the smaller one stays in front when it was fetched first. *)
Example big_integer_volumes_tie :
  sorted_reverse (volume_key (rt := sample_runtime))
    [ {[ "baseVolume" := PInt (2 ^ 53) ]}; {[ "baseVolume" := PInt (2 ^ 53 + 1) ]} ]
  = inr [ {[ "baseVolume" := PInt (2 ^ 53) ]}; {[ "baseVolume" := PInt (2 ^ 53 + 1) ]} ].
Proof. vm_compute; reflexivity. Qed.




Lemma get_exchange_any_letter_case_witness :
  ∃ i w1,
    get_exchange (PStr "BiNaNcE") initial_world = (Returned i, w1) ∧
    get_exchange (PStr "binance") initial_world = (Returned i, w1) ∧
    inst_class i = binance.
Proof.
  apply (get_exchange_any_letter_case "BiNaNcE" binance initial_world);
    [reflexivity|apply initial_world_ok].
Defined.

Lemma get_exchange_one_instance_per_identifier_witness :
  ∃ i w1,
    get_exchange (PStr "Kraken") initial_world = (Returned i, w1) ∧
    i = mkInstance 0 kraken ∧
    exchange_instances w1 = [("kraken", i)] ∧
    get_exchange (PStr "KRAKEN") w1 = (Returned i, w1).
Proof.
  destruct (get_exchange_one_instance_per_identifier "Kraken" kraken initial_world)
    as (i & w1 & Hrun & _ & _ & Hfirst & _ & Hagain & _);
    [reflexivity|apply initial_world_ok|].
  destruct (Hfirst eq_refl) as (Hi & _ & Hcache & _).
  exists i, w1. split; [exact Hrun|]. split; [exact Hi|]. split; [exact Hcache|].
  apply Hagain. reflexivity.
Defined.


Lemma get_exchange_ftx_is_hyperliquid_witness :
  get_exchange (PStr "ftx") initial_world =
    (Returned (mkInstance 0 hyperliquid),
     mkWorld [("ftx", mkInstance 0 hyperliquid)] 1 [Construct (mkInstance 0 hyperliquid)]).
Proof. apply (get_exchange_ftx_is_hyperliquid initial_world). reflexivity. Defined.


(** * Further properties of the code *)

(** ** What a call does to the library, step by step *)

Section CallShape.
Context {rt : Runtime}.

Lemma world_eta (w : World) :
  mkWorld (exchange_instances w) (next_id w) (trace w ++ []) = w.
Proof. destruct w. simpl. by rewrite app_nil_r. Qed.

Lemma quiet_ret {A : Type} (a : A) : quiet (mret a).
Proof. by intros w. Qed.

Lemma quiet_raise {A : Type} (e : exn) : quiet (@raise A e).
Proof. by intros w. Qed.

Lemma quiet_lift {A : Type} (r : exn + A) : quiet (lift r).
Proof. destruct r; [apply quiet_raise|apply quiet_ret]. Qed.

Lemma quiet_bind {A B : Type} (m : M A) (k : A → M B) :
  quiet m → (∀ a, quiet (k a)) → quiet (m ≫= k).
Proof.
  intros Hm Hk w. specialize (Hm w). run.
  destruct (m w) as [[a|e] w1]; simpl in *; subst w1; [apply Hk|done].
Qed.

Lemma quiet_format_ticker (ticker : Ticker) (exchange_id : pyval) :
  quiet (format_ticker ticker exchange_id).
Proof. apply quiet_bind; [apply quiet_lift|intros ex; apply quiet_ret]. Qed.

Lemma quiet_format_all (tickers : list Ticker) (exchange_id : pyval) :
  quiet (format_all tickers exchange_id).
Proof.
  induction tickers as [|t l IH]; simpl; [apply quiet_ret|].
  apply quiet_bind; [apply quiet_format_ticker|intros fd].
  apply quiet_bind; [exact IH|intros fr; apply quiet_ret].
Qed.

Lemma fetches_once_quiet {A : Type} (exchange : Instance) (m : M A) :
  quiet m → fetches_once exchange m.
Proof.
  intros Hm w. exists None. split; [|done]. by rewrite Hm, world_eta.
Qed.

Lemma fetches_once_after_quiet {A B : Type} (exchange : Instance)
    (m : M A) (k : A → M B) :
  quiet m → (∀ a, fetches_once exchange (k a)) → fetches_once exchange (m ≫= k).
Proof.
  intros Hm Hk w. specialize (Hm w). run.
  destruct (m w) as [[a|e] w1]; simpl in *; subst w1; [apply Hk|].
  exists None. split; [|done]. by rewrite world_eta.
Qed.

Lemma fetches_once_log {A B : Type} (exchange : Instance) (ev : Event)
    (r : exn + A) (k : A → M B) :
  fetched_on ev = Some exchange →
  (∀ a, quiet (k a)) →
  fetches_once exchange ((log ev ≫= λ _, lift r) ≫= k).
Proof.
  intros Hev Hk w. exists (Some ev). split; [|by intros ev' [= <-]].
  run. destruct r as [e|a]; [done|]. exact (Hk a _).
Qed.

Lemma tool_action_fetches_once (name : string) (arguments : ArgDict)
    (exchange_id : pyval) (exchange : Instance) :
  fetches_once exchange (tool_action name arguments exchange_id exchange).
Proof.
  unfold tool_action. repeat case_decide.
  - apply fetches_once_after_quiet; [apply quiet_lift|intros symbol].
    apply fetches_once_log; [done|intros ticker].
    repeat (apply quiet_bind; [apply quiet_lift|intros ?]). apply quiet_ret.
  - apply fetches_once_after_quiet; [apply quiet_lift|intros symbol].
    apply fetches_once_log; [done|intros ticker].
    apply quiet_bind; [apply quiet_format_ticker|intros ?]. apply quiet_ret.
  - apply fetches_once_after_quiet; [apply quiet_lift|intros limit].
    apply fetches_once_log; [done|intros tickers].
    apply quiet_bind; [apply quiet_lift|intros sorted].
    apply quiet_bind; [apply quiet_format_all|intros ?].
    apply quiet_bind; [apply quiet_lift|intros ?]. apply quiet_ret.
  - apply fetches_once_quiet, quiet_raise.
Qed.

(** Every way [get_exchange] can go. *)
Lemma get_exchange_cases (v : pyval) (w : World) :
  get_exchange v w =
    match v with
    | PStr s =>
        match dict_lookup (lower s) SUPPORTED_EXCHANGES with
        | Some cls =>
            match dict_lookup (lower s) (exchange_instances w) with
            | Some i => (Returned i, w)
            | None =>
                (Returned (mkInstance (next_id w) cls),
                 mkWorld (exchange_instances w ++ [(lower s, mkInstance (next_id w) cls)])
                         (S (next_id w))
                         (trace w ++ [Construct (mkInstance (next_id w) cls)]))
            end
        | None => (Raised (ValueError ("Unsupported exchange: " +:+ lower s)), w)
        end
    | _ => (Raised AttributeError, w)
    end.
Proof.
  destruct v as [| | | |s]; try reflexivity.
  destruct (dict_lookup (lower s) SUPPORTED_EXCHANGES) as [cls|] eqn:Hreg;
    [|by apply get_exchange_unsupported].
  destruct (dict_lookup (lower s) (exchange_instances w)) as [i|] eqn:Hc.
  - by apply (get_exchange_hit s cls).
  - by apply get_exchange_miss.
Qed.

End CallShape.

Section CallTrace.
Context {rt : Runtime}.

Lemma dict_lookup_values {V : Type} (k : string) (v : V) (d : list (string * V)) :
  dict_lookup k d = Some v → v ∈ dict_values d.
Proof.
  unfold dict_values. induction d as [|[k' v'] d IH]; simpl; [done|].
  case_decide.
  - intros [= ->]. apply elem_of_cons; by left.
  - intros Hd. apply elem_of_cons; right; by apply IH.
Qed.

Lemma dispatch_world (name : string) (arguments : ArgDict) (w : World) :
  (dispatch name arguments w).2 =
    if decide (name = "list-exchanges") then w
    else match get_exchange (dict_get arguments "exchange" (PStr "binance")) w with
         | (Returned i, w1) =>
             (tool_action name arguments
                (dict_get arguments "exchange" (PStr "binance")) i w1).2
         | (Raised _, w1) => w1
         end.
Proof.
  unfold dispatch. case_decide; [reflexivity|]. run.
  by destruct (get_exchange _ w) as [[i|e] w1].
Qed.

(** The [try] body: at most one construction, then at most one fetch. *)
Lemma dispatch_shape (name : string) (arguments : ArgDict) (w : World) :
  ∃ (c : option Instance) (f : option Event),
    trace (dispatch name arguments w).2 =
      trace w ++ (Construct <$> option_list c) ++ option_list f ∧
    dict_values (exchange_instances (dispatch name arguments w).2) =
      dict_values (exchange_instances w) ++ option_list c ∧
    next_id (dispatch name arguments w).2 = (next_id w + length (option_list c))%nat ∧
    (∀ i, c = Some i → inst_id i = next_id w) ∧
    (∀ ev, f = Some ev →
           ∃ i, fetched_on ev = Some i ∧
                i ∈ dict_values (exchange_instances w) ++ option_list c).
Proof.
  rewrite dispatch_world. case_decide as Hname.
  { exists None, None. simpl. rewrite !app_nil_r. repeat split; try done; lia. }
  rewrite get_exchange_cases.
  destruct (dict_get arguments "exchange" (PStr "binance")) as [| | | |s] eqn:Hid;
    try (exists None, None; simpl; rewrite !app_nil_r; repeat split; try done; lia).
  destruct (dict_lookup (lower s) SUPPORTED_EXCHANGES) as [cls|] eqn:Hreg;
    [|exists None, None; simpl; rewrite !app_nil_r; repeat split; try done; lia].
  destruct (dict_lookup (lower s) (exchange_instances w)) as [i|] eqn:Hc.
  - destruct (tool_action_fetches_once name arguments (PStr s) i w) as (f & Hw & Hf).
    exists None, f. rewrite Hw. simpl. rewrite app_nil_r.
    split; [done|]. split; [done|]. split; [lia|]. split; [done|].
    intros ev Hev. exists i. split; [by apply Hf|].
    by apply (dict_lookup_values (lower s)).
  - set (i := mkInstance (next_id w) cls).
    destruct (tool_action_fetches_once name arguments (PStr s) i
                (mkWorld (exchange_instances w ++ [(lower s, i)]) (S (next_id w))
                         (trace w ++ [Construct i]))) as (f & Hw & Hf).
    exists (Some i), f. rewrite Hw. simpl.
    unfold dict_values. rewrite fmap_app. simpl. rewrite <- !app_assoc. simpl.
    split; [done|]. split; [done|]. split; [lia|]. split; [by intros i' [= <-]|].
    intros ev Hev. exists i. split; [by apply Hf|].
    apply elem_of_app. right. by apply list_elem_of_singleton.
Qed.

(** X1: whatever the tool, the arguments and the answers of the library,
    a call does at most three things to the library, in this order: it
    constructs at most one instance, makes at most one fetch, on an
    instance that it closes afterwards, and closes every instance the
    cache held plus the one it constructed. *)
Theorem call_constructs_fetches_closes
    (name : string) (arguments : ArgDict) (w : World) :
  ∃ (c : option Instance) (f : option Event),
    trace (handle_call_tool name arguments w).2 =
      trace w ++ (Construct <$> option_list c) ++ option_list f ++
      (Close <$> (dict_values (exchange_instances w) ++ option_list c)) ∧
    next_id (handle_call_tool name arguments w).2
      = (next_id w + length (option_list c))%nat ∧
    (∀ i, c = Some i → inst_id i = next_id w) ∧
    (∀ ev, f = Some ev →
           ∃ i, fetched_on ev = Some i ∧
                i ∈ dict_values (exchange_instances w) ++ option_list c).
Proof.
  destruct (dispatch_shape name arguments w) as (c & f & Ht & Hv & Hn & Hc & Hf).
  exists c, f. rewrite handle_call_tool_run. unfold closed_world. simpl.
  rewrite Ht, Hv, Hn, <- !app_assoc. by repeat split.
Qed.

(** X2: calls do not share connections.  After any call, a call of a
    tool other than list-exchanges on a supported exchange constructs
    its own instance of the registered class, makes at most one fetch
    and closes that instance; the instance differs from every instance
    constructed by the call before. *)
Theorem consecutive_calls_do_not_share
    (name1 name2 : string) (arguments1 arguments2 : ArgDict) (w : World)
    (e : string) (cls : ExchangeClass) :
  name2 ≠ "list-exchanges" →
  dict_get arguments2 "exchange" (PStr "binance") = PStr e →
  dict_lookup (lower e) SUPPORTED_EXCHANGES = Some cls →
  let w1 := (handle_call_tool name1 arguments1 w).2 in
  let i := mkInstance (next_id w1) cls in
  (∃ f : option Event,
     trace (handle_call_tool name2 arguments2 w1).2 =
       trace w1 ++ [Construct i] ++ option_list f ++ [Close i] ∧
     ∀ ev, f = Some ev → fetched_on ev = Some i) ∧
  (∀ j evs, trace w1 = trace w ++ evs → Construct j ∈ evs → j ≠ i).
Proof.
  intros Hname Hid Hreg w1 i. split.
  - assert (exchange_instances w1 = []) as Hempty.
    { subst w1. by rewrite handle_call_tool_run. }
    rewrite handle_call_tool_run. unfold closed_world. simpl.
    rewrite dispatch_world, decide_False by done.
    rewrite get_exchange_cases, Hid, Hreg, Hempty. simpl.
    destruct (tool_action_fetches_once name2 arguments2 (PStr e) i
                (mkWorld [(lower e, i)] (S (next_id w1)) (trace w1 ++ [Construct i])))
      as (f & Hw & Hf).
    exists f. fold i. rewrite Hw. simpl. rewrite <- !app_assoc. by split.
  - intros j evs Hevs Hj ->.
    destruct (dispatch_shape name1 arguments1 w) as (c & f & Ht & _ & Hn & Hc & Hf).
    assert (next_id w1 = (next_id w + length (option_list c))%nat) as Hn1.
    { subst w1. by rewrite handle_call_tool_run. }
    assert (trace w1 = trace w ++ (Construct <$> option_list c) ++ option_list f ++
                       (Close <$> dict_values (exchange_instances
                                                 (dispatch name1 arguments1 w).2))) as Ht1.
    { subst w1. rewrite handle_call_tool_run. unfold closed_world. simpl.
      by rewrite Ht, <- !app_assoc. }
    rewrite Hevs in Ht1. apply app_inv_head in Ht1. subst evs.
    rewrite !elem_of_app in Hj. destruct Hj as [Hj|[Hj|Hj]].
    + destruct c as [i0|]; simpl in *; [|by apply elem_of_nil in Hj].
      apply list_elem_of_singleton in Hj. injection Hj as Hj.
      specialize (Hc i0 eq_refl). subst i0. subst i. simpl in Hc. lia.
    + destruct f as [ev|]; simpl in *; [|by apply elem_of_nil in Hj].
      apply list_elem_of_singleton in Hj. subst ev.
      destruct (Hf _ eq_refl) as (? & ? & _). discriminate.
    + apply list_elem_of_fmap in Hj as (? & ? & _). discriminate.
Qed.

End CallTrace.

(** ** The catalog against the dispatcher and the resolver *)

Section Catalog.
Context {rt : Runtime}.

Lemma dict_lookup_is_Some {V : Type} (k : string) (d : list (string * V)) :
  is_Some (dict_lookup k d) ↔ k ∈ dict_keys d.
Proof.
  destruct (dict_lookup k d) as [v|] eqn:Hd.
  - split; [intros _|by eexists].
    destruct (decide (k ∈ dict_keys d)) as [|Hn]; [done|].
    apply dict_lookup_None in Hn. congruence.
  - split; [by intros [v Hv]|].
    intros Hin. by apply dict_lookup_None in Hd.
Qed.

Lemma handle_call_tool_rejection (name : string) (arguments : ArgDict) (w : World) :
  name ∉ TOOL_NAMES →
  handle_call_tool name arguments w =
    (Raised (rejection name (dict_get arguments "exchange" (PStr "binance"))),
     closed_world (get_exchange (dict_get arguments "exchange" (PStr "binance")) w).2).
Proof.
  intros Hname.
  assert (name ≠ "list-exchanges") as Hn.
  { intros ->. apply Hname. unfold TOOL_NAMES. rewrite !elem_of_cons. tauto. }
  rewrite handle_call_tool_run, dispatch_resolves by done. run.
  rewrite get_exchange_cases. unfold rejection.
  destruct (dict_get arguments "exchange" (PStr "binance")) as [| | | |s]; try reflexivity.
  destruct (dict_lookup (lower s) SUPPORTED_EXCHANGES) as [cls|]; [|reflexivity].
  destruct (dict_lookup (lower s) (exchange_instances w)) as [i|];
    by rewrite tool_action_unknown.
Qed.

(** X3: a tool name that [handle_list_tools] does not advertise is never
    served.  Whatever the arguments (the exchange, when a string, an
    ASCII one) and the state, the call raises: an [AttributeError] when
    the exchange argument is not a string, the unsupported-exchange
    [ValueError] when it names no registry key, the unknown-tool
    [ValueError] otherwise. *)
Theorem unadvertised_tool_is_rejected (name : string) (arguments : ArgDict) (w : World) :
  name ∉ tool_name <$> handle_list_tools →
  (∀ e, dict_get arguments "exchange" (PStr "binance") = PStr e → ascii_only e = true) →
  (handle_call_tool name arguments w).1 =
    Raised (rejection name (dict_get arguments "exchange" (PStr "binance"))).
Proof.
  intros Hname _. by rewrite handle_call_tool_rejection.
Qed.

(** X4: the identifiers the schema offers are the ones the resolver
    accepts: for an ASCII string, [get_exchange] returns an instance
    exactly when the lower-case form of the string is in the "enum" of
    [get_exchange_schema]. *)
Theorem schema_enum_is_what_resolves (s : string) (w : World) :
  ascii_only s = true →
  ((∃ i w1, get_exchange (PStr s) w = (Returned i, w1)) ↔
   lower s ∈ schema_enum get_exchange_schema).
Proof.
  intros _.
  change (schema_enum get_exchange_schema) with (dict_keys SUPPORTED_EXCHANGES).
  rewrite <- dict_lookup_is_Some. split.
  - intros (i & w1 & Hrun). apply get_exchange_returned in Hrun as (s' & cls & Hs & Hreg & _).
    injection Hs as <-. by eexists.
  - intros [cls Hreg]. by apply (get_exchange_supported s cls).
Qed.

(** X5: each of the three market tools advertises, for its "exchange"
    argument, a schema whose default is one of its enumerated values, and
    that default is the identifier the dispatcher resolves when the
    argument is absent. *)
Theorem advertised_default_is_the_dispatched_one
    (t : Tool) (arguments : ArgDict) (w : World) :
  t ∈ handle_list_tools →
  tool_name t ≠ "list-exchanges" →
  arguments !! "exchange" = None →
  ∃ schema d,
    argument_schema "exchange" t = Some schema ∧
    json_field "default" schema = Some (JString d) ∧
    d ∈ schema_enum schema ∧
    dispatch (tool_name t) arguments w =
      (get_exchange (PStr d) ≫= tool_action (tool_name t) arguments (PStr d)) w.
Proof.
  intros Ht Hname Hnone.
  assert (dict_get arguments "exchange" (PStr "binance") = PStr "binance") as Hdef.
  { unfold dict_get. by rewrite Hnone. }
  exists get_exchange_schema, "binance".
  unfold handle_list_tools in Ht. rewrite !elem_of_cons in Ht.
  destruct Ht as [->|[->|[->|[->|Ht]]]]; [..|by apply elem_of_nil in Ht];
    try done; (split; [reflexivity|]); (split; [reflexivity|]);
    (split; [by vm_compute; apply list_elem_of_here|]);
    rewrite dispatch_resolves by done; by rewrite Hdef.
Qed.

(** X6: an exchange argument that does not resolve (not a string, or an
    ASCII string that is no registry key in any letter case) stops the
    call before the library is touched: nothing is constructed and
    nothing fetched, the call raises, and the state is the one the
    [finally] block makes of the state at entry. *)
Theorem unresolved_exchange_touches_nothing
    (name : string) (arguments : ArgDict) (w : World) :
  name ≠ "list-exchanges" →
  (∀ s, dict_get arguments "exchange" (PStr "binance") = PStr s →
        ascii_only s = true ∧ dict_lookup (lower s) SUPPORTED_EXCHANGES = None) →
  handle_call_tool name arguments w =
    (Raised (rejection name (dict_get arguments "exchange" (PStr "binance"))),
     mkWorld [] (next_id w) (trace w ++ (Close <$> dict_values (exchange_instances w)))).
Proof.
  intros Hname Hbad.
  rewrite handle_call_tool_run, dispatch_resolves by done. run.
  rewrite get_exchange_cases. unfold rejection.
  destruct (dict_get arguments "exchange" (PStr "binance")) as [| | | |s]; try reflexivity.
  by rewrite (proj2 (Hbad s eq_refl)).
Qed.

(** X7: [get_exchange] never evicts or replaces: whatever it is asked
    and however it ends, an identifier that was cached is cached to the
    same instance afterwards. *)
Theorem get_exchange_keeps_cached (v : pyval) (w : World) (k : string) (i : Instance) :
  dict_lookup k (exchange_instances w) = Some i →
  dict_lookup k (exchange_instances (get_exchange v w).2) = Some i.
Proof.
  intros Hk. rewrite get_exchange_cases.
  destruct v as [| | | |s]; try done.
  destruct (dict_lookup (lower s) SUPPORTED_EXCHANGES) as [cls|]; [|done].
  destruct (dict_lookup (lower s) (exchange_instances w)) as [j|]; [done|].
  simpl. by rewrite dict_lookup_snoc, Hk.
Qed.

End Catalog.

(** ** The ticker tools: get-market-summary and the edges of get-price *)

Lemma str_app_assoc (a b c : string) : a +:+ b +:+ c = (a +:+ b) +:+ c.
Proof.
  induction a as [|x a IH]; [reflexivity|].
  change (String x (a +:+ b +:+ c) = String x ((a +:+ b) +:+ c)). by rewrite IH.
Qed.

Lemma one_line_false (s : string) : one_line s = true ↔ contains newline s = false.
Proof. unfold one_line. by destruct (contains newline s). Qed.

Lemma split_line (label v rest : string) :
  contains newline label = false →
  contains newline v = false →
  split newline (label +:+ v +:+ nl +:+ rest) = (label +:+ v) :: split newline rest.
Proof.
  intros Hl Hv. change (nl +:+ rest) with (String newline rest).
  rewrite str_app_assoc. apply split_at_first.
  by rewrite contains_app, Hl, Hv.
Qed.

Section TickerTools.
Context {rt : Runtime}.

Lemma py_str_dict_get (ticker : Ticker) (k : string) (dflt : pyval) :
  py_str (dict_get ticker k dflt) = printed ticker k (py_str dflt).
Proof. unfold dict_get, printed. by destruct (ticker !! k). Qed.

Lemma line_step (label v rest : string) :
  label +:+ v +:+ nl +:+ rest = (label +:+ v) +:+ String "010" rest.
Proof. by rewrite str_app_assoc. Qed.

Lemma one_line_app (a b : string) : one_line (a +:+ b) = one_line a && one_line b.
Proof. unfold one_line. rewrite contains_app. by destruct (contains newline a). Qed.

Lemma printed_one_line (ticker : Ticker) (k missing : string) :
  map_Forall (λ _ v, one_line (py_str v) = true) ticker →
  one_line missing = true →
  one_line (printed ticker k missing) = true.
Proof.
  intros Hall Hm. unfold printed.
  destruct (ticker !! k) as [v|] eqn:Hk; [|done].
  by apply (map_Forall_lookup_1 _ _ _ _ Hall Hk).
Qed.

(** The block of [format_ticker], line by line. *)
Lemma ticker_text_as_lines (ex : string) (ticker : Ticker) :
  ticker_text ex ticker =
    text_of_lines
      [ "Exchange: " +:+ ex;
        "Symbol: " +:+ printed ticker "symbol" "None";
        "Last Price: " +:+ printed ticker "last" "N/A";
        "24h High: " +:+ printed ticker "high" "N/A";
        "24h Low: " +:+ printed ticker "low" "N/A";
        "24h Volume: " +:+ printed ticker "baseVolume" "N/A";
        "Bid: " +:+ printed ticker "bid" "N/A";
        "Ask: " +:+ printed ticker "ask" "N/A";
        "---" ].
Proof.
  unfold ticker_text. rewrite !py_str_dict_get.
  change (py_str PNone) with "None". change (py_str (PStr "N/A")) with "N/A".
  do 8 rewrite line_step. reflexivity.
Qed.

(** X8: the text [format_ticker] builds is nine lines in a fixed order,
    one field per line: the exchange, then the symbol, printed as None
    when the ticker has none, then last price, high, low, volume, bid
    and ask, each printed as N/A when the ticker has none, then "---";
    each of the nine is one line when the exchange name and the values
    of the ticker hold no line break. *)
Theorem ticker_text_lines (ex : string) (ticker : Ticker) :
  one_line ex = true →
  map_Forall (λ _ v, one_line (py_str v) = true) ticker →
  ∃ lines,
    lines =
      [ "Exchange: " +:+ ex;
        "Symbol: " +:+ printed ticker "symbol" "None";
        "Last Price: " +:+ printed ticker "last" "N/A";
        "24h High: " +:+ printed ticker "high" "N/A";
        "24h Low: " +:+ printed ticker "low" "N/A";
        "24h Volume: " +:+ printed ticker "baseVolume" "N/A";
        "Bid: " +:+ printed ticker "bid" "N/A";
        "Ask: " +:+ printed ticker "ask" "N/A";
        "---" ] ∧
    ticker_text ex ticker = text_of_lines lines ∧
    Forall (λ line, one_line line = true) lines.
Proof.
  intros Hex Hall. eexists. split; [reflexivity|]. split.
  - apply ticker_text_as_lines.
  - repeat (apply Forall_cons; split);
      rewrite ?one_line_app, ?Hex, ?printed_one_line by done; try done.
Qed.

Lemma ticker_tool_run (name : string) (arguments : ArgDict) (exchange_id symbol : string)
    (exchange : Instance) (w : World) :
  name = "get-price" ∨ name = "get-market-summary" →
  dict_get arguments "symbol" (PStr "") = PStr symbol →
  tool_action name arguments (PStr exchange_id) exchange w =
    match ccxt_fetch_ticker exchange (upper symbol) with
    | inl err =>
        (Raised err,
         mkWorld (exchange_instances w) (next_id w)
                 (trace w ++ [FetchTicker exchange (upper symbol)]))
    | inr ticker =>
        tool_action name arguments (PStr exchange_id) exchange w
    end.
Proof.
  intros Hname Hsym.
  destruct (ccxt_fetch_ticker exchange (upper symbol)) as [err|ticker] eqn:Hfetch;
    [|reflexivity].
  unfold tool_action.
  destruct Hname as [-> | ->].
  - rewrite decide_True by done. rewrite Hsym. unfold fetch_ticker. run.
    by rewrite Hfetch.
  - rewrite decide_False, decide_True by done. rewrite Hsym. unfold fetch_ticker. run.
    by rewrite Hfetch.
Qed.

Lemma market_summary_run (arguments : ArgDict) (exchange_id symbol : string)
    (exchange : Instance) (ticker : Ticker) (w : World) :
  dict_get arguments "symbol" (PStr "") = PStr symbol →
  ccxt_fetch_ticker exchange (upper symbol) = inr ticker →
  tool_action "get-market-summary" arguments (PStr exchange_id) exchange w =
    (Returned [text_content
                 ("Market summary for " +:+ upper symbol +:+ ":" +:+ nl +:+ nl +:+
                  ticker_text (upper exchange_id) ticker)],
     mkWorld (exchange_instances w) (next_id w)
             (trace w ++ [FetchTicker exchange (upper symbol)])).
Proof.
  intros Hsym Hfetch. unfold tool_action.
  rewrite decide_False, decide_True by done.
  rewrite Hsym. unfold fetch_ticker, format_ticker. run. by rewrite Hfetch.
Qed.

(** X9: get-market-summary returns its text for every ticker the fetch
    returns and every ASCII string symbol, with or without a '/', the
    absent symbol included: one text block with the heading that names
    the upper-cased symbol, a blank line and the nine lines of
    [format_ticker]; one ticker is fetched, for the upper-cased symbol. *)
Theorem market_summary_text (arguments : ArgDict) (w w1 : World) (exchange : Instance)
    (exchange_id symbol : string) (ticker : Ticker) :
  dict_get arguments "symbol" (PStr "") = PStr symbol →
  ascii_only symbol = true →
  dict_get arguments "exchange" (PStr "binance") = PStr exchange_id →
  get_exchange (PStr exchange_id) w = (Returned exchange, w1) →
  ccxt_fetch_ticker exchange (upper symbol) = inr ticker →
  handle_call_tool "get-market-summary" arguments w =
    (Returned [mkTextContent "text"
                 ("Market summary for " +:+ upper symbol +:+ ":" +:+ LF +:+ LF +:+
                  text_of_lines
                    [ "Exchange: " +:+ upper exchange_id;
                      "Symbol: " +:+ printed ticker "symbol" "None";
                      "Last Price: " +:+ printed ticker "last" "N/A";
                      "24h High: " +:+ printed ticker "high" "N/A";
                      "24h Low: " +:+ printed ticker "low" "N/A";
                      "24h Volume: " +:+ printed ticker "baseVolume" "N/A";
                      "Bid: " +:+ printed ticker "bid" "N/A";
                      "Ask: " +:+ printed ticker "ask" "N/A";
                      "---" ])],
     mkWorld [] (next_id w1)
             (trace w1 ++ [FetchTicker exchange (upper symbol)]
              ++ (Close <$> dict_values (exchange_instances w1)))).
Proof.
  intros Hsym _ Hid Hex Hfetch. rewrite <- Hid in Hex.
  rewrite handle_call_tool_run.
  rewrite (dispatch_resolved "get-market-summary" arguments w w1 exchange) by done.
  rewrite Hid, (market_summary_run arguments exchange_id symbol exchange ticker) by done.
  unfold closed_world. simpl. by rewrite <- app_assoc, ticker_text_as_lines.
Qed.

(** X10: when the fetch of a ticker tool raises, the call ends after
    that one fetch, made for the upper-cased (ASCII) symbol: an error of
    the library becomes one text block, "Error accessing cryptocurrency
    data: " followed by its message, and any other exception is raised
    to the caller. *)
Theorem ticker_fetch_error (name : string) (arguments : ArgDict) (w w1 : World)
    (exchange : Instance) (exchange_id symbol : string) (err : exn) :
  name = "get-price" ∨ name = "get-market-summary" →
  dict_get arguments "symbol" (PStr "") = PStr symbol →
  ascii_only symbol = true →
  dict_get arguments "exchange" (PStr "binance") = PStr exchange_id →
  get_exchange (PStr exchange_id) w = (Returned exchange, w1) →
  ccxt_fetch_ticker exchange (upper symbol) = inl err →
  handle_call_tool name arguments w =
    (match err with
     | BaseError msg =>
         Returned [mkTextContent "text"
                     ("Error accessing cryptocurrency data: " +:+ msg)]
     | _ => Raised err
     end,
     mkWorld [] (next_id w1)
             (trace w1 ++ [FetchTicker exchange (upper symbol)]
              ++ (Close <$> dict_values (exchange_instances w1)))).
Proof.
  intros Hname Hsym _ Hid Hex Hfetch. rewrite <- Hid in Hex.
  assert (name ≠ "list-exchanges") as Hn by (by destruct Hname as [-> | ->]).
  rewrite handle_call_tool_run.
  rewrite (dispatch_resolved name arguments w w1 exchange) by done.
  rewrite Hid, (ticker_tool_run name arguments exchange_id symbol) by done.
  rewrite Hfetch. unfold closed_world. simpl. by rewrite <- app_assoc.
Qed.

(** X11: a symbol argument that is not a string ends a ticker tool with
    an [AttributeError], after the exchange has been resolved and before
    anything is fetched. *)
Theorem symbol_not_a_string (name : string) (arguments : ArgDict) (w w1 : World)
    (exchange : Instance) (exchange_id : string) :
  name = "get-price" ∨ name = "get-market-summary" →
  (∀ s, dict_get arguments "symbol" (PStr "") ≠ PStr s) →
  dict_get arguments "exchange" (PStr "binance") = PStr exchange_id →
  get_exchange (PStr exchange_id) w = (Returned exchange, w1) →
  handle_call_tool name arguments w =
    (Raised AttributeError,
     mkWorld [] (next_id w1) (trace w1 ++ (Close <$> dict_values (exchange_instances w1)))).
Proof.
  intros Hname Hsym Hid Hex. rewrite <- Hid in Hex.
  assert (name ≠ "list-exchanges") as Hn by (by destruct Hname as [-> | ->]).
  rewrite handle_call_tool_run.
  rewrite (dispatch_resolved name arguments w w1 exchange) by done.
  assert (tool_action name arguments
            (dict_get arguments "exchange" (PStr "binance")) exchange w1
          = (Raised AttributeError, w1)) as ->; [|reflexivity].
  unfold tool_action.
  destruct (dict_get arguments "symbol" (PStr "")) as [| | | |s] eqn:Hs;
    [..|by destruct (Hsym s)];
    destruct Hname as [-> | ->];
    rewrite ?decide_True by done; rewrite ?decide_False by done;
    rewrite ?decide_True by done; reflexivity.
Qed.

(** X12: get-price on a ticker without a "last" key raises
    [KeyError('last')], whatever the (ASCII) symbol; get-market-summary
    returns its text for the same ticker, and its third line is "Last
    Price: N/A". *)
Theorem get_price_needs_last (arguments : ArgDict) (w w1 : World) (exchange : Instance)
    (exchange_id symbol : string) (ticker : Ticker) :
  dict_get arguments "symbol" (PStr "") = PStr symbol →
  ascii_only symbol = true →
  dict_get arguments "exchange" (PStr "binance") = PStr exchange_id →
  get_exchange (PStr exchange_id) w = (Returned exchange, w1) →
  ccxt_fetch_ticker exchange (upper symbol) = inr ticker →
  ticker !! "last" = None →
  (handle_call_tool "get-price" arguments w).1 = Raised (KeyError "last") ∧
  (handle_call_tool "get-market-summary" arguments w).1 =
    Returned [mkTextContent "text"
                ("Market summary for " +:+ upper symbol +:+ ":" +:+ LF +:+ LF +:+
                 text_of_lines
                   [ "Exchange: " +:+ upper exchange_id;
                     "Symbol: " +:+ printed ticker "symbol" "None";
                     "Last Price: N/A";
                     "24h High: " +:+ printed ticker "high" "N/A";
                     "24h Low: " +:+ printed ticker "low" "N/A";
                     "24h Volume: " +:+ printed ticker "baseVolume" "N/A";
                     "Bid: " +:+ printed ticker "bid" "N/A";
                     "Ask: " +:+ printed ticker "ask" "N/A";
                     "---" ])].
Proof.
  intros Hsym _ Hid Hex Hfetch Hlast. rewrite <- Hid in Hex.
  rewrite !handle_call_tool_run.
  rewrite (dispatch_resolved "get-price" arguments w w1 exchange) by done.
  rewrite (dispatch_resolved "get-market-summary" arguments w w1 exchange) by done.
  rewrite Hid, (get_price_run arguments exchange_id symbol exchange ticker) by done.
  rewrite (market_summary_run arguments exchange_id symbol exchange ticker) by done.
  rewrite Hlast, ticker_text_as_lines. unfold printed at 2. rewrite Hlast.
  by split.
Qed.

(** X13: for an ASCII symbol with more than one '/', the text get-price
    returns ends with the part between the first and the second '/',
    in upper case, not with everything after the first '/'. *)
Theorem get_price_second_component (arguments : ArgDict) (w w1 : World)
    (exchange : Instance) (exchange_id base quote rest : string)
    (ticker : Ticker) (last : pyval) :
  dict_get arguments "symbol" (PStr "")
    = PStr (base +:+ "/" +:+ quote +:+ "/" +:+ rest) →
  ascii_only (base +:+ "/" +:+ quote +:+ "/" +:+ rest) = true →
  contains slash base = false →
  contains slash quote = false →
  dict_get arguments "exchange" (PStr "binance") = PStr exchange_id →
  get_exchange (PStr exchange_id) w = (Returned exchange, w1) →
  ccxt_fetch_ticker exchange (upper (base +:+ "/" +:+ quote +:+ "/" +:+ rest))
    = inr ticker →
  ticker !! "last" = Some last →
  (handle_call_tool "get-price" arguments w).1 =
    Returned [mkTextContent "text"
                ("Current price of " +:+ upper (base +:+ "/" +:+ quote +:+ "/" +:+ rest)
                 +:+ " on " +:+ upper exchange_id +:+ ": " +:+ py_str last
                 +:+ " " +:+ upper quote)].
Proof.
  intros Hsym _ Hbase Hquote Hid Hex Hfetch Hlast. rewrite <- Hid in Hex.
  rewrite handle_call_tool_run.
  rewrite (dispatch_resolved "get-price" arguments w w1 exchange) by done.
  rewrite Hid, (get_price_run arguments exchange_id _ exchange ticker w1 Hsym Hfetch).
  rewrite Hlast. cbn [fst caught].
  replace (split slash (upper (base +:+ "/" +:+ quote +:+ "/" +:+ rest)) !! 1%nat)
    with (Some (upper quote)); [reflexivity|].
  rewrite !upper_app.
  change (upper "/" +:+ upper quote +:+ upper "/" +:+ upper rest)
    with (String slash (upper quote +:+ String slash (upper rest))).
  rewrite split_at_first by (by rewrite contains_upper_slash).
  rewrite split_at_first by (by rewrite contains_upper_slash).
  reflexivity.
Qed.

End TickerTools.

(** ** The edges of get-top-volumes *)

Section TopVolumesEdges.
Context {rt : Runtime}.

Lemma decorate_first_error {A : Type} (key : A → exn + Q) (l1 l2 : list A)
    (x : A) (err : exn) :
  Forall (λ a, ∃ q, key a = inr q) l1 →
  key x = inl err →
  decorate key (l1 ++ x :: l2) = inl err.
Proof.
  intros Hdef Hx. induction Hdef as [|a l1 [q Hq] _ IH]; simpl.
  - by rewrite Hx.
  - by rewrite Hq, IH.
Qed.

(** The steps of the branch, in the order the code takes them. *)
Lemma top_volumes_steps (arguments : ArgDict) (exchange_id : string)
    (exchange : Instance) (w : World) :
  tool_action "get-top-volumes" arguments (PStr exchange_id) exchange w =
    match py_int (dict_get arguments "limit" (PInt 5)) with
    | inl err => (Raised err, w)
    | inr limit =>
        let w' := mkWorld (exchange_instances w) (next_id w)
                          (trace w ++ [FetchTickers exchange]) in
        match ccxt_fetch_tickers exchange with
        | inl err => (Raised err, w')
        | inr tickers =>
            match sorted_reverse volume_key (dict_values tickers) with
            | inl err => (Raised err, w')
            | inr sorted =>
                (Returned [text_content
                             ("Top " +:+ pretty limit +:+ " pairs by volume on " +:+
                              upper exchange_id +:+ ":" +:+ nl +:+ nl +:+
                              join nl (ticker_text (upper exchange_id)
                                         <$> slice_to sorted limit))],
                 w')
            end
        end
    end.
Proof.
  unfold tool_action. rewrite decide_False, decide_False, decide_True by done.
  destruct (py_int (dict_get arguments "limit" (PInt 5))) as [err|limit]; [reflexivity|].
  unfold fetch_tickers. run.
  destruct (ccxt_fetch_tickers exchange) as [err|tickers]; [reflexivity|].
  destruct (sorted_reverse volume_key (dict_values tickers)) as [err|sorted];
    [reflexivity|].
  by rewrite format_all_run.
Qed.

Lemma top_volumes_call (arguments : ArgDict) (w w1 : World) (exchange : Instance)
    (exchange_id : string) :
  dict_get arguments "exchange" (PStr "binance") = PStr exchange_id →
  get_exchange (PStr exchange_id) w = (Returned exchange, w1) →
  handle_call_tool "get-top-volumes" arguments w =
    (caught (tool_action "get-top-volumes" arguments (PStr exchange_id) exchange w1).1,
     closed_world (tool_action "get-top-volumes" arguments (PStr exchange_id) exchange w1).2).
Proof.
  intros Hid Hex. rewrite <- Hid in Hex. rewrite handle_call_tool_run.
  rewrite (dispatch_resolved "get-top-volumes" arguments w w1 exchange) by done.
  by rewrite Hid.
Qed.

(** X14: a limit that [int()] rejects (null, a string that is no number)
    ends get-top-volumes with that exception before anything is fetched:
    the exchange has been resolved, no request is made. *)
Theorem limit_rejected_before_fetch (arguments : ArgDict) (w w1 : World)
    (exchange : Instance) (exchange_id : string) (err : exn) :
  dict_get arguments "exchange" (PStr "binance") = PStr exchange_id →
  get_exchange (PStr exchange_id) w = (Returned exchange, w1) →
  py_int (dict_get arguments "limit" (PInt 5)) = inl err →
  (∀ msg, err ≠ BaseError msg) →
  handle_call_tool "get-top-volumes" arguments w =
    (Raised err,
     mkWorld [] (next_id w1) (trace w1 ++ (Close <$> dict_values (exchange_instances w1)))).
Proof.
  intros Hid Hex Hlimit Herr.
  rewrite (top_volumes_call arguments w w1 exchange exchange_id) by done.
  rewrite top_volumes_steps, Hlimit. simpl.
  destruct err; try reflexivity. by destruct (Herr msg).
Qed.

(** X15: when the fetch of all tickers raises, get-top-volumes ends after
    that one fetch: an error of the library becomes one text block,
    "Error accessing cryptocurrency data: " followed by its message, any
    other exception is raised to the caller. *)
Theorem tickers_fetch_error (arguments : ArgDict) (w w1 : World)
    (exchange : Instance) (exchange_id : string) (N : Z) (err : exn) :
  dict_get arguments "exchange" (PStr "binance") = PStr exchange_id →
  get_exchange (PStr exchange_id) w = (Returned exchange, w1) →
  py_int (dict_get arguments "limit" (PInt 5)) = inr N →
  ccxt_fetch_tickers exchange = inl err →
  handle_call_tool "get-top-volumes" arguments w =
    (match err with
     | BaseError msg =>
         Returned [mkTextContent "text"
                     ("Error accessing cryptocurrency data: " +:+ msg)]
     | _ => Raised err
     end,
     mkWorld [] (next_id w1)
             (trace w1 ++ [FetchTickers exchange]
              ++ (Close <$> dict_values (exchange_instances w1)))).
Proof.
  intros Hid Hex Hlimit Hfetch.
  rewrite (top_volumes_call arguments w w1 exchange exchange_id) by done.
  rewrite top_volumes_steps, Hlimit, Hfetch. unfold closed_world. simpl.
  by rewrite <- app_assoc.
Qed.



(** X18: one ticker whose volume [float()] rejects fails the whole
    get-top-volumes call: the exception of the first such ticker in fetch
    order is raised after the fetch, and no entry is returned. *)
Theorem bad_volume_fails_the_call (arguments : ArgDict) (w w1 : World)
    (exchange : Instance) (exchange_id : string)
    (tickers : list (string * Ticker)) (N : Z)
    (before after : list Ticker) (x : Ticker) (err : exn) :
  dict_get arguments "exchange" (PStr "binance") = PStr exchange_id →
  get_exchange (PStr exchange_id) w = (Returned exchange, w1) →
  py_int (dict_get arguments "limit" (PInt 5)) = inr N →
  ccxt_fetch_tickers exchange = inr tickers →
  dict_values tickers = before ++ x :: after →
  Forall (λ t, ∃ q, volume_key t = inr q) before →
  volume_key x = inl err →
  (∀ msg, err ≠ BaseError msg) →
  handle_call_tool "get-top-volumes" arguments w =
    (Raised err,
     mkWorld [] (next_id w1)
             (trace w1 ++ [FetchTickers exchange]
              ++ (Close <$> dict_values (exchange_instances w1)))).
Proof.
  intros Hid Hex Hlimit Hfetch Hsplit Hdef Hx Herr.
  rewrite (top_volumes_call arguments w w1 exchange exchange_id) by done.
  rewrite top_volumes_steps, Hlimit, Hfetch. simpl.
  unfold sorted_reverse. rewrite Hsplit, (decorate_first_error _ _ _ _ _ Hdef Hx).
  unfold closed_world. simpl. rewrite <- app_assoc.
  destruct err; try reflexivity. by destruct (Herr msg).
Qed.

End TopVolumesEdges.

(** ** Concrete runs of the further properties *)

Lemma consecutive_calls_do_not_share_witness :
  ∃ f : option Event,
    trace (handle_call_tool (rt := sample_runtime) "get-market-summary"
             {[ "symbol" := PStr "eth/usdt"; "exchange" := PStr "Kraken" ]}
             (handle_call_tool (rt := sample_runtime) "get-price"
                {[ "symbol" := PStr "btc/usdt" ]} initial_world).2).2 =
      [ Construct (mkInstance 0 binance);
        FetchTicker (mkInstance 0 binance) "BTC/USDT";
        Close (mkInstance 0 binance) ]
      ++ [Construct (mkInstance 1 kraken)] ++ option_list f
      ++ [Close (mkInstance 1 kraken)].
Proof.
  destruct (consecutive_calls_do_not_share (rt := sample_runtime)
              "get-price" "get-market-summary"
              {[ "symbol" := PStr "btc/usdt" ]}
              {[ "symbol" := PStr "eth/usdt"; "exchange" := PStr "Kraken" ]}
              initial_world "Kraken" kraken) as [(f & Hf & _) _].
  - discriminate.
  - by vm_compute.
  - reflexivity.
  - exists f. exact Hf.
Defined.

Lemma unadvertised_tool_is_rejected_witness :
  (handle_call_tool (rt := sample_runtime) "get-orderbook"
     {[ "exchange" := PStr "DogeCoinEx" ]} initial_world).1
    = Raised (ValueError "Unsupported exchange: dogecoinex") ∧
  (handle_call_tool (rt := sample_runtime) "get-orderbook"
     {[ "exchange" := PStr "Kraken" ]} initial_world).1
    = Raised (ValueError "Unknown tool: get-orderbook").
Proof.
  assert ("get-orderbook" ∉ tool_name <$> handle_list_tools) as Hname.
  { change (tool_name <$> handle_list_tools) with TOOL_NAMES. unfold TOOL_NAMES.
    rewrite !not_elem_of_cons. repeat split; try discriminate.
    apply not_elem_of_nil. }
  split.
  - etrans.
    + apply (unadvertised_tool_is_rejected (rt := sample_runtime) "get-orderbook"
               {[ "exchange" := PStr "DogeCoinEx" ]} initial_world Hname).
      intros e He. vm_compute in He. injection He as <-. reflexivity.
    + vm_compute; reflexivity.
  - etrans.
    + apply (unadvertised_tool_is_rejected (rt := sample_runtime) "get-orderbook"
               {[ "exchange" := PStr "Kraken" ]} initial_world Hname).
      intros e He. vm_compute in He. injection He as <-. reflexivity.
    + vm_compute; reflexivity.
Defined.

Lemma schema_enum_is_what_resolves_witness :
  (∃ i w1, get_exchange (PStr "OKX") initial_world = (Returned i, w1)) ∧
  ¬ (∃ i w1, get_exchange (PStr "ftx-us") initial_world = (Returned i, w1)).
Proof.
  split.
  - apply (schema_enum_is_what_resolves "OKX" initial_world); [reflexivity|].
    vm_compute. do 8 apply list_elem_of_further. apply list_elem_of_here.
  - intros Hres.
    apply (schema_enum_is_what_resolves "ftx-us" initial_world) in Hres; [|reflexivity].
    change (schema_enum get_exchange_schema) with (dict_keys SUPPORTED_EXCHANGES) in Hres.
    unfold SUPPORTED_EXCHANGES, dict_keys in Hres. simpl in Hres.
    rewrite !elem_of_cons in Hres.
    repeat (destruct Hres as [Hres|Hres]; [discriminate|]).
    by apply elem_of_nil in Hres.
Defined.

Lemma advertised_default_is_the_dispatched_one_witness :
  ∃ schema d,
    argument_schema "exchange"
      (mkTool "get-top-volumes"
         "Get top cryptocurrencies by trading volume from a specific exchange"
         (JObject
            [ ("type", JString "object");
              ("properties",
               JObject
                 [ ("limit",
                    JObject
                      [ ("type", JString "number");
                        ("description",
                         JString "Number of pairs to return (default: 5)") ]);
                   ("exchange", get_exchange_schema) ]) ])) = Some schema ∧
    json_field "default" schema = Some (JString d) ∧
    d ∈ schema_enum schema ∧
    dispatch (rt := sample_runtime) "get-top-volumes" ∅ initial_world =
      (get_exchange (PStr d) ≫=
       tool_action (rt := sample_runtime) "get-top-volumes" ∅ (PStr d)) initial_world.
Proof.
  match goal with
  | |- context [argument_schema _ ?t] =>
      apply (advertised_default_is_the_dispatched_one (rt := sample_runtime)
               t ∅ initial_world)
  end.
  - unfold handle_list_tools. do 2 apply list_elem_of_further. apply list_elem_of_here.
  - discriminate.
  - reflexivity.
Defined.

Lemma unresolved_exchange_touches_nothing_witness :
  handle_call_tool (rt := sample_runtime) "get-top-volumes"
    {[ "exchange" := PStr "FTX-US" ]} (resolved_world "kraken" kraken) =
    (Raised (ValueError "Unsupported exchange: ftx-us"),
     mkWorld [] 1 [Construct (mkInstance 0 kraken); Close (mkInstance 0 kraken)]).
Proof.
  etrans.
  - apply (unresolved_exchange_touches_nothing (rt := sample_runtime) "get-top-volumes"
             {[ "exchange" := PStr "FTX-US" ]} (resolved_world "kraken" kraken)).
    + discriminate.
    + intros s Hs. vm_compute in Hs. injection Hs as <-. by split.
  - by vm_compute.
Defined.

Lemma get_exchange_keeps_cached_witness :
  dict_lookup "kraken"
    (exchange_instances (get_exchange (PStr "OKX") (resolved_world "kraken" kraken)).2)
    = Some (mkInstance 0 kraken).
Proof.
  apply (get_exchange_keeps_cached (PStr "OKX") (resolved_world "kraken" kraken)).
  reflexivity.
Defined.

Lemma ticker_text_lines_witness :
  ticker_text (rt := sample_runtime) "KRAKEN"
    {[ "last" := PFloat (3500 # 1); "bid" := PNone ]} =
    text_of_lines
      [ "Exchange: KRAKEN"; "Symbol: None"; "Last Price: 3500.0";
        "24h High: N/A"; "24h Low: N/A"; "24h Volume: N/A"; "Bid: None"; "Ask: N/A";
        "---" ] ∧
  ∃ lines, length lines = 9%nat ∧ Forall (λ line, one_line line = true) lines.
Proof.
  split; [vm_compute; reflexivity|].
  destruct (ticker_text_lines (rt := sample_runtime) "KRAKEN"
              {[ "last" := PFloat (3500 # 1); "bid" := PNone ]})
    as (lines & Hlines & _ & Hone).
  - reflexivity.
  - apply map_Forall_insert_2; [by vm_compute|].
    apply map_Forall_insert_2; [by vm_compute|]. apply map_Forall_empty.
  - exists lines. split; [by rewrite Hlines|exact Hone].
Defined.

Lemma market_summary_text_witness :
  handle_call_tool (rt := sample_runtime) "get-market-summary"
    {[ "symbol" := PStr "ethusdt"; "exchange" := PStr "Kraken" ]} initial_world =
    (Returned [mkTextContent "text"
                 (text_of_lines
                    [ "Market summary for ETHUSDT:"; "";
                      "Exchange: KRAKEN"; "Symbol: ETHUSDT"; "Last Price: 97000.5";
                      "24h High: N/A"; "24h Low: N/A"; "24h Volume: 37.5";
                      "Bid: N/A"; "Ask: N/A"; "---" ])],
     mkWorld [] 1 [ Construct (mkInstance 0 kraken);
                    FetchTicker (mkInstance 0 kraken) "ETHUSDT";
                    Close (mkInstance 0 kraken) ]).
Proof.
  etrans.
  - apply (market_summary_text (rt := sample_runtime)
             {[ "symbol" := PStr "ethusdt"; "exchange" := PStr "Kraken" ]}
             initial_world (resolved_world "kraken" kraken) (mkInstance 0 kraken)
             "Kraken" "ethusdt"
             (sample_ticker "ETHUSDT" (194001 # 2) (PFloat (75 # 2))));
      vm_compute; reflexivity.
  - vm_compute; reflexivity.
Defined.

Lemma ticker_fetch_error_witness :
  handle_call_tool (rt := sample_runtime) "get-market-summary"
    {[ "symbol" := PStr "doge/xyz" ]} initial_world =
    (Returned [mkTextContent "text"
        "Error accessing cryptocurrency data: binance does not have market symbol DOGE/XYZ"],
     mkWorld [] 1 [ Construct (mkInstance 0 binance);
                    FetchTicker (mkInstance 0 binance) "DOGE/XYZ";
                    Close (mkInstance 0 binance) ]).
Proof.
  etrans.
  - apply (ticker_fetch_error (rt := sample_runtime) "get-market-summary"
             {[ "symbol" := PStr "doge/xyz" ]}
             initial_world (resolved_world "binance" binance) (mkInstance 0 binance)
             "binance" "doge/xyz"
             (BaseError "binance does not have market symbol DOGE/XYZ"));
      [by right|vm_compute; reflexivity..].
  - vm_compute; reflexivity.
Defined.

Lemma symbol_not_a_string_witness :
  handle_call_tool (rt := sample_runtime) "get-price"
    {[ "symbol" := PInt 42 ]} initial_world =
    (Raised AttributeError,
     mkWorld [] 1 [Construct (mkInstance 0 binance); Close (mkInstance 0 binance)]).
Proof.
  etrans.
  - apply (symbol_not_a_string (rt := sample_runtime) "get-price"
             {[ "symbol" := PInt 42 ]}
             initial_world (resolved_world "binance" binance) (mkInstance 0 binance)
             "binance").
    + by left.
    + intros s Hs. vm_compute in Hs. discriminate.
    + by vm_compute.
    + reflexivity.
  - by vm_compute.
Defined.

Lemma get_price_needs_last_witness :
  (handle_call_tool (rt := edge_runtime) "get-price"
     {[ "symbol" := PStr "btc/usdt" ]} initial_world).1 = Raised (KeyError "last") ∧
  (handle_call_tool (rt := edge_runtime) "get-market-summary"
     {[ "symbol" := PStr "btc/usdt" ]} initial_world).1 =
    Returned [mkTextContent "text"
                (text_of_lines
                   [ "Market summary for BTC/USDT:"; "";
                     "Exchange: BINANCE"; "Symbol: BTC/USDT"; "Last Price: N/A";
                     "24h High: N/A"; "24h Low: N/A"; "24h Volume: N/A";
                     "Bid: N/A"; "Ask: N/A"; "---" ])].
Proof.
  destruct (get_price_needs_last (rt := edge_runtime) {[ "symbol" := PStr "btc/usdt" ]}
              initial_world (resolved_world "binance" binance) (mkInstance 0 binance)
              "binance" "btc/usdt" {[ "symbol" := PStr "BTC/USDT" ]})
    as [Hprice Hsummary]; [vm_compute; reflexivity..|].
  split; [exact Hprice|].
  etrans; [exact Hsummary|vm_compute; reflexivity].
Defined.

Lemma get_price_second_component_witness :
  (handle_call_tool (rt := sample_runtime) "get-price"
     {[ "symbol" := PStr "btc/usdt/perp" ]} initial_world).1 =
    Returned [mkTextContent "text"
                "Current price of BTC/USDT/PERP on BINANCE: 97000.5 USDT"].
Proof.
  etrans.
  - apply (get_price_second_component (rt := sample_runtime)
             {[ "symbol" := PStr "btc/usdt/perp" ]}
             initial_world (resolved_world "binance" binance) (mkInstance 0 binance)
             "binance" "btc" "usdt" "perp"
             (sample_ticker "BTC/USDT/PERP" (194001 # 2) (PFloat (75 # 2)))
             (PFloat (194001 # 2)));
      vm_compute; reflexivity.
  - vm_compute; reflexivity.
Defined.

Lemma limit_rejected_before_fetch_witness :
  handle_call_tool (rt := sample_runtime) "get-top-volumes"
    {[ "limit" := PNone ]} initial_world =
    (Raised TypeError,
     mkWorld [] 1 [Construct (mkInstance 0 binance); Close (mkInstance 0 binance)]).
Proof.
  etrans.
  - apply (limit_rejected_before_fetch (rt := sample_runtime) {[ "limit" := PNone ]}
             initial_world (resolved_world "binance" binance) (mkInstance 0 binance)
             "binance" TypeError); by vm_compute.
  - by vm_compute.
Defined.

Lemma tickers_fetch_error_witness :
  handle_call_tool (rt := edge_runtime) "get-top-volumes" ∅ initial_world =
    (Returned [mkTextContent "text"
        "Error accessing cryptocurrency data: binance GET /api/v3/ticker/24hr 503"],
     mkWorld [] 1 [ Construct (mkInstance 0 binance);
                    FetchTickers (mkInstance 0 binance);
                    Close (mkInstance 0 binance) ]).
Proof.
  etrans.
  - apply (tickers_fetch_error (rt := edge_runtime) ∅
             initial_world (resolved_world "binance" binance) (mkInstance 0 binance)
             "binance" 5 (BaseError "binance GET /api/v3/ticker/24hr 503"));
      vm_compute; reflexivity.
  - vm_compute; reflexivity.
Defined.



Lemma bad_volume_fails_the_call_witness :
  handle_call_tool (rt := edge_runtime) "get-top-volumes"
    {[ "exchange" := PStr "okx" ]} initial_world =
    (Raised (ValueError "could not convert string to float: n/a"),
     mkWorld [] 1 [ Construct (mkInstance 0 okx);
                    FetchTickers (mkInstance 0 okx);
                    Close (mkInstance 0 okx) ]).
Proof.
  etrans.
  - apply (bad_volume_fails_the_call (rt := edge_runtime)
             {[ "exchange" := PStr "okx" ]}
             initial_world (resolved_world "okx" okx) (mkInstance 0 okx)
             "okx" edge_tickers 5
             [sample_ticker "ETH/USDT" (3500 # 1) (PFloat (40 # 1))]
             [sample_ticker "SOL/USDT" (150 # 1) (PInt 40)]
             (sample_ticker "BTC/USDT" (194001 # 2) (PStr "n/a"))
             (ValueError "could not convert string to float: n/a")).
    + vm_compute; reflexivity.
    + reflexivity.
    + vm_compute; reflexivity.
    + reflexivity.
    + reflexivity.
    + repeat constructor. eexists. vm_compute; reflexivity.
    + vm_compute; reflexivity.
    + discriminate.
  - vm_compute; reflexivity.
Defined.
